(** * Real-income calculator for independent contractors (Colombia)

    A shallow embedding of the calculation engine of the application:
    the rate table of [constants.ts], the types of [types.ts] and the two
    memoised computations [results] and [simulatorResults] of [App.tsx],
    together with the two input handlers that feed them, the values the
    component derives for display, and the state of the component with its
    event handlers.  (The second copy
    of the component among the sources has the same [results] body; it has
    no simulator and reads the contract value with [Number].)

    JavaScript numbers are modelled by the type [number] below: a finite
    value is held as an exact canonical rational, and the three non-finite
    values of IEEE 754 are kept apart.  The arithmetic of [number] does not
    round to 53 bits and does not keep the sign of zero: a statement about
    finite values is a statement of exact rational arithmetic.  Two places
    do round as the source does: [parseInt] (see [round_to_binary64]) and
    the second embedding of [results] at the end of the definitions, which
    evaluates the same body with the primitive binary64 operations. *)

From Stdlib Require Import QArith Qcanon Lqa Lia Ascii String DecimalString DecimalN.
From Stdlib Require Import PrimFloat.
From stdpp Require Import base numbers strings gmap.

Local Open Scope Qc_scope.
Set Warnings "-inexact-float".

(** ** JavaScript numbers *)

Inductive number : Type :=
  | Fin (q : Qc)
  | PosInf
  | NegInf
  | NaN.

(** A decimal literal of the source, as the exact rational it denotes. *)
Definition num (q : Q) : number := Fin (Q2Qc q).

Definition signed_inf (positive : bool) : number :=
  if positive then PosInf else NegInf.

Definition neg (x : number) : number :=
  match x with
  | Fin a => Fin (- a)
  | PosInf => NegInf
  | NegInf => PosInf
  | NaN => NaN
  end.

Definition add (x y : number) : number :=
  match x, y with
  | NaN, _ | _, NaN => NaN
  | Fin a, Fin b => Fin (a + b)
  | PosInf, NegInf | NegInf, PosInf => NaN
  | PosInf, _ | _, PosInf => PosInf
  | NegInf, _ | _, NegInf => NegInf
  end.

Definition sub (x y : number) : number := add x (neg y).

Definition mul (x y : number) : number :=
  match x, y with
  | NaN, _ | _, NaN => NaN
  | Fin a, Fin b => Fin (a * b)
  | Fin a, PosInf | PosInf, Fin a =>
      if decide (a = 0) then NaN else signed_inf (bool_decide (0 < a))
  | Fin a, NegInf | NegInf, Fin a =>
      if decide (a = 0) then NaN else signed_inf (bool_decide (a < 0))
  | PosInf, PosInf | NegInf, NegInf => PosInf
  | PosInf, NegInf | NegInf, PosInf => NegInf
  end.

(** Division.  A finite value over zero is not finite: [0/0] is [NaN] and
    [a/0] an infinity (the zero being taken as [+0]). *)
Definition div (x y : number) : number :=
  match x, y with
  | NaN, _ | _, NaN => NaN
  | Fin a, Fin b =>
      if decide (b = 0)
      then (if decide (a = 0) then NaN else signed_inf (bool_decide (0 < a)))
      else Fin (a / b)
  | Fin _, (PosInf | NegInf) => Fin 0
  | PosInf, Fin b => signed_inf (bool_decide (0 <= b))
  | NegInf, Fin b => signed_inf (bool_decide (b < 0))
  | (PosInf | NegInf), (PosInf | NegInf) => NaN
  end.

(** [x > y]; any comparison with [NaN] is false. *)
Definition gt (x y : number) : bool :=
  match x, y with
  | NaN, _ | _, NaN => false
  | Fin a, Fin b => bool_decide (b < a)
  | PosInf, (Fin _ | NegInf) => true
  | Fin _, NegInf => true
  | _, _ => false
  end.

Definition lt (x y : number) : bool := gt y x.

Definition isNaN (x : number) : bool :=
  match x with NaN => true | _ => false end.

Declare Scope number_scope.
Delimit Scope number_scope with number.
Bind Scope number_scope with number.
Infix "+" := add : number_scope.
Infix "-" := sub : number_scope.
Infix "*" := mul : number_scope.
Infix "/" := div : number_scope.
Infix ">?" := gt (at level 70, no associativity) : number_scope.
Infix "<?" := lt (at level 70, no associativity) : number_scope.

(** ** types.ts *)

(** [enum RiskLevel]: five members, each with a string value; at run time a
    risk level is that string. *)
Module RiskLevel.
Inductive t : Type := I | II | III | IV | V.

Definition value (r : t) : string :=
  match r with
  | I => "I"
  | II => "II"
  | III => "III"
  | IV => "IV"
  | V => "V"
  end.

Definition all : list t := [I; II; III; IV; V].
End RiskLevel.

Record CalculationResults : Type := {
  contractValue : number;
  ibc : number;
  health : number;
  pension : number;
  arl : number;
  vacationProvision : number;
  severanceProvision : number;
  contractualRiskProvision : number;
  totalSocialSecurity : number;
  totalProvisions : number;
  totalCosts : number;
  netIncome : number;
  nonDisposablePercent : number
}.

(** ** constants.ts *)

Definition IBC_PERCENTAGE : number := num 0.40.
Definition HEALTH_RATE : number := num 0.125.
Definition PENSION_RATE : number := num 0.16.

(** [ARL_RATES] is an object whose keys are the enum's string values. *)
Definition ARL_RATES : gmap string number :=
  {[ RiskLevel.value RiskLevel.I := num 0.00522;
     RiskLevel.value RiskLevel.II := num 0.01044;
     RiskLevel.value RiskLevel.III := num 0.02436;
     RiskLevel.value RiskLevel.IV := num 0.04350;
     RiskLevel.value RiskLevel.V := num 0.06960 ]}.

Definition VACATION_PROVISION_RATE : number := num 0.0417.
Definition SEVERANCE_PROVISION_RATE : number := num 0.0933.

(** ** App.tsx: the engine *)

(** A property read used as an operand of [*].  A key the object does not
    hold reads as [undefined] (or as a member inherited from the object
    prototype), which converts to [NaN]; the read itself does not fail. *)
Definition prop_number (o : gmap string number) (key : string) : number :=
  match o !! key with
  | Some n => n
  | None => NaN
  end.

(** The body of [results], on the run-time representation of its inputs
    (the enum is erased to its string value). *)
Definition results_at_key (contractValue : number) (riskLevel : string)
    (contractualRiskPercent : number) : CalculationResults :=
  let ibc := (contractValue * IBC_PERCENTAGE)%number in
  let health := (ibc * HEALTH_RATE)%number in
  let pension := (ibc * PENSION_RATE)%number in
  let arl := (ibc * prop_number ARL_RATES riskLevel)%number in
  let vacationProvision := (contractValue * VACATION_PROVISION_RATE)%number in
  let severanceProvision := (contractValue * SEVERANCE_PROVISION_RATE)%number in
  let contractualRiskRate := (contractualRiskPercent / num 100)%number in
  let contractualRiskProvision := (contractValue * contractualRiskRate)%number in
  let totalSocialSecurity := (health + pension + arl)%number in
  let totalProvisions :=
    (vacationProvision + severanceProvision + contractualRiskProvision)%number in
  let totalCosts := (totalSocialSecurity + totalProvisions)%number in
  let netIncome := (contractValue - totalCosts)%number in
  let nonDisposablePercent :=
    if (contractValue >? num 0)%number
    then (totalCosts / contractValue * num 100)%number
    else num 0 in
  {| contractValue := contractValue;
     ibc := ibc;
     health := health;
     pension := pension;
     arl := arl;
     vacationProvision := vacationProvision;
     severanceProvision := severanceProvision;
     contractualRiskProvision := contractualRiskProvision;
     totalSocialSecurity := totalSocialSecurity;
     totalProvisions := totalProvisions;
     totalCosts := totalCosts;
     netIncome := netIncome;
     nonDisposablePercent := nonDisposablePercent |}.

(** [results] at its declared type: [riskLevel : RiskLevel]. *)
Definition results (contractValue : number) (riskLevel : RiskLevel.t)
    (contractualRiskPercent : number) : CalculationResults :=
  results_at_key contractValue (RiskLevel.value riskLevel) contractualRiskPercent.

Record SimulatorResults : Type := {
  requiredGross : number;
  difference : number
}.

Definition costFactor (results : CalculationResults) : number :=
  if (contractValue results >? num 0)%number
  then (totalCosts results / contractValue results)%number
  else num 0.

Definition factorRemainder (results : CalculationResults) : number :=
  (num 1 - costFactor results)%number.

Definition simulatorResults (desiredNetIncome : number)
    (results : CalculationResults) : SimulatorResults :=
  let factorRemainder := factorRemainder results in
  let requiredGross :=
    if (factorRemainder >? num 0)%number
    then (desiredNetIncome / factorRemainder)%number
    else num 0 in
  let difference := (requiredGross - contractValue results)%number in
  {| requiredGross := requiredGross; difference := difference |}.

(** ** App.tsx: the input handlers *)

(** [/\D/]: a character that is not one of [0]..[9]. *)
Definition is_digit (c : ascii) : bool :=
  (48 <=? nat_of_ascii c)%nat && (nat_of_ascii c <=? 57)%nat.

(** [displayVal.replace(/\D/g, '')] *)
Fixpoint strip_non_digits (s : string) : string :=
  match s with
  | EmptyString => EmptyString
  | String c rest =>
      if is_digit c then String c (strip_non_digits rest)
      else strip_non_digits rest
  end.

(** The integer that a string of decimal digits denotes, read left to
    right. *)
Fixpoint parse_digits (acc : Z) (s : string) : Z :=
  match s with
  | EmptyString => acc
  | String c rest =>
      parse_digits (10 * acc + (Z.of_nat (nat_of_ascii c) - 48)) rest
  end.

(** The Number nearest to a non-negative integer: exact below [2^53];
    from there on the integer is rounded to 53 significant bits, a tie
    going to the even neighbour, and the result is [+Infinity] from
    [2^1024] on. *)
Definition round_to_binary64 (n : Z) : number :=
  if (n <? 2 ^ 53)%Z then Fin (Qc_of_Z n)
  else
    let e := (Z.log2 n - 52)%Z in
    let q := (n / 2 ^ e)%Z in
    let rest := (n mod 2 ^ e)%Z in
    let half := (2 ^ (e - 1))%Z in
    let m :=
      if (rest <? half)%Z then q
      else if (half <? rest)%Z then (q + 1)%Z
      else if Z.even q then q else (q + 1)%Z in
    if (2 ^ 1024 <=? m * 2 ^ e)%Z then PosInf else Fin (Qc_of_Z (m * 2 ^ e)).

(** [parseInt(numericStr, 10)] on a non-empty string of decimal digits:
    the Number nearest to the integer the digits denote (all the digits
    being taken as written). *)
Definition parseInt10 (numericStr : string) : number :=
  round_to_binary64 (parse_digits 0 numericStr).

Definition parseInputValue (displayVal : string) : number :=
  let numericStr := strip_non_digits displayVal in
  match numericStr with
  | EmptyString => num 0
  | _ => parseInt10 numericStr
  end.

(** [handleRiskChange] after its [parseFloat]: the value handed to
    [setContractualRiskPercent]. *)
Definition handleRiskChange (parsed : number) : number :=
  let val := parsed in
  let val := if isNaN val then num 0 else val in
  let val := if (val >? num 20)%number then num 20 else val in
  let val := if (val <? num 0)%number then num 0 else val in
  val.

(** ** App.tsx: what the component derives for display *)

(** [100 - results.nonDisposablePercent], shown (after [toFixed(1)]) as
    the efficiency of the contract and as the share that is really the
    contractor's. *)
Definition contractEfficiency (results : CalculationResults) : number :=
  (num 100 - nonDisposablePercent results)%number.

(** [simulatorResults.difference > 0 ? '+' : ''] *)
Definition differencePrefix (s : SimulatorResults) : string :=
  if (difference s >? num 0)%number then "+" else "".

(** The colour class of the difference:
    [difference > 0 ? 'text-emerald-600' : difference < 0 ? 'text-red-600'
     : 'text-slate-600']. *)
Definition differenceClass (s : SimulatorResults) : string :=
  if (difference s >? num 0)%number then "text-emerald-600"
  else if (difference s <? num 0)%number then "text-red-600"
  else "text-slate-600".

(** The cards of [riskInfo]; [level] is a plain string, cast to
    [RiskLevel] when a card is clicked. *)
Record RiskInfo : Type := {
  level : string;
  rate : string;
  color : string;
  label : string;
  desc : string
}.

Definition riskInfo : list RiskInfo :=
  [ {| level := "I"; rate := "0.522%"; color := "bg-emerald-500";
       label := "Riesgo Mínimo";
       desc := "Actividades administrativas, centros de educación, finanzas." |};
    {| level := "II"; rate := "1.044%"; color := "bg-green-500";
       label := "Riesgo Bajo";
       desc := "Procesos manufactureros como tapetes, tejidos, confecciones." |};
    {| level := "III"; rate := "2.436%"; color := "bg-yellow-500";
       label := "Riesgo Medio";
       desc := "Fabricación de alimentos, alcoholes, agujas, automotriz." |};
    {| level := "IV"; rate := "4.350%"; color := "bg-orange-500";
       label := "Riesgo Alto";
       desc := "Transporte aéreo, terrestre, fabricación de aceites." |};
    {| level := "V"; rate := "6.960%"; color := "bg-red-600";
       label := "Riesgo Máximo";
       desc := "Minería, construcción, trabajos eléctricos, explosivos." |} ].

(** The three preset buttons of the contractual-risk percentage. *)
Record RiskPreset : Type := {
  preset_label : string;
  val : number
}.

Definition riskPresets : list RiskPreset :=
  [ {| preset_label := "Bajo"; val := num 5 |};
    {| preset_label := "Medio"; val := num 10 |};
    {| preset_label := "Alto"; val := num 15 |} ].

(** ** App.tsx: the state of the component and its event handlers *)

Module AppState.
Record t : Type := {
  contractValue : number;
  riskLevel : string;
  contractualRiskPercent : number;
  isIBCModalOpen : bool;
  desiredNetIncome : number
}.

(** The arguments of the five [useState] calls. *)
Definition initial : t :=
  {| contractValue := num 3200000;
     riskLevel := RiskLevel.value RiskLevel.I;
     contractualRiskPercent := num 10.0;
     isIBCModalOpen := false;
     desiredNetIncome := num 2800000 |}.
End AppState.

(** What the user can do.  A change of a text input carries the text of
    the input; a change of the percentage input carries what [parseFloat]
    made of its text; the select carries the chosen option; a click on a
    card or on a preset carries the position of the element in the list
    the buttons are mapped from. *)
Inductive Event : Type :=
  | ContractValueChange (value : string)
  | RiskLevelSelect (selected : RiskLevel.t)
  | OpenIBCModal
  | CloseIBCModal
  | RiskPercentChange (parsed : number)
  | RiskPresetClick (index : nat)
  | GenerateReport
  | DesiredNetIncomeChange (value : string)
  | RiskCardClick (index : nat).

(** The state after the handler of an event has run. *)
Definition handle (st : AppState.t) (e : Event) : AppState.t :=
  match e with
  | ContractValueChange value =>
      {| AppState.contractValue := parseInputValue value;
         AppState.riskLevel := AppState.riskLevel st;
         AppState.contractualRiskPercent := AppState.contractualRiskPercent st;
         AppState.isIBCModalOpen := AppState.isIBCModalOpen st;
         AppState.desiredNetIncome := AppState.desiredNetIncome st |}
  | RiskLevelSelect selected =>
      {| AppState.contractValue := AppState.contractValue st;
         AppState.riskLevel := RiskLevel.value selected;
         AppState.contractualRiskPercent := AppState.contractualRiskPercent st;
         AppState.isIBCModalOpen := AppState.isIBCModalOpen st;
         AppState.desiredNetIncome := AppState.desiredNetIncome st |}
  | OpenIBCModal =>
      {| AppState.contractValue := AppState.contractValue st;
         AppState.riskLevel := AppState.riskLevel st;
         AppState.contractualRiskPercent := AppState.contractualRiskPercent st;
         AppState.isIBCModalOpen := true;
         AppState.desiredNetIncome := AppState.desiredNetIncome st |}
  | CloseIBCModal =>
      {| AppState.contractValue := AppState.contractValue st;
         AppState.riskLevel := AppState.riskLevel st;
         AppState.contractualRiskPercent := AppState.contractualRiskPercent st;
         AppState.isIBCModalOpen := false;
         AppState.desiredNetIncome := AppState.desiredNetIncome st |}
  | RiskPercentChange parsed =>
      {| AppState.contractValue := AppState.contractValue st;
         AppState.riskLevel := AppState.riskLevel st;
         AppState.contractualRiskPercent := handleRiskChange parsed;
         AppState.isIBCModalOpen := AppState.isIBCModalOpen st;
         AppState.desiredNetIncome := AppState.desiredNetIncome st |}
  | RiskPresetClick index =>
      match riskPresets !! index with
      | Some preset =>
          {| AppState.contractValue := AppState.contractValue st;
             AppState.riskLevel := AppState.riskLevel st;
             AppState.contractualRiskPercent := val preset;
             AppState.isIBCModalOpen := AppState.isIBCModalOpen st;
             AppState.desiredNetIncome := AppState.desiredNetIncome st |}
      | None => st
      end
  | GenerateReport => st
  | DesiredNetIncomeChange value =>
      {| AppState.contractValue := AppState.contractValue st;
         AppState.riskLevel := AppState.riskLevel st;
         AppState.contractualRiskPercent := AppState.contractualRiskPercent st;
         AppState.isIBCModalOpen := AppState.isIBCModalOpen st;
         AppState.desiredNetIncome := parseInputValue value |}
  | RiskCardClick index =>
      match riskInfo !! index with
      | Some info =>
          {| AppState.contractValue := AppState.contractValue st;
             AppState.riskLevel := level info;
             AppState.contractualRiskPercent := AppState.contractualRiskPercent st;
             AppState.isIBCModalOpen := AppState.isIBCModalOpen st;
             AppState.desiredNetIncome := AppState.desiredNetIncome st |}
      | None => st
      end
  end.

(** The state after a sequence of events, from the initial state. *)
Definition run (events : list Event) : AppState.t :=
  fold_left handle events AppState.initial.

(** The two memoised values at a state. *)
Definition state_results (st : AppState.t) : CalculationResults :=
  results_at_key (AppState.contractValue st) (AppState.riskLevel st)
    (AppState.contractualRiskPercent st).

Definition state_simulatorResults (st : AppState.t) : SimulatorResults :=
  simulatorResults (AppState.desiredNetIncome st) (state_results st).

(** An amount as [parseInputValue] can make it: finite and not negative,
    or [+Infinity]. *)
Definition amount_in_range (x : number) : Prop :=
  (exists q : Qc, x = Fin q /\ 0 <= q) \/ x = PosInf.

(** What the handlers keep true of the four inputs of the engine: the two
    amounts are not negative and not [NaN], the risk level is the value of
    a member of the enum, and the percentage is finite and within
    [0,20]. *)
Definition inputs_in_range (st : AppState.t) : Prop :=
  amount_in_range (AppState.contractValue st)
  /\ (exists r : RiskLevel.t, AppState.riskLevel st = RiskLevel.value r)
  /\ (exists q : Qc,
        AppState.contractualRiskPercent st = Fin q /\ 0 <= q /\ q <= Q2Qc 20)
  /\ amount_in_range (AppState.desiredNetIncome st).

(** An event whose text, if it carries one, has at most fifteen digits:
    an amount below [10^15], which [parseInt] reads exactly. *)
Definition amount_fits (e : Event) : Prop :=
  match e with
  | ContractValueChange value | DesiredNetIncomeChange value =>
      (String.length (strip_non_digits value) <= 15)%nat
  | _ => True
  end.

(** The inputs of the engine when both amounts are finite integers. *)
Definition inputs_finite (st : AppState.t) : Prop :=
  (exists n : Z, (0 <= n)%Z /\ AppState.contractValue st = Fin (Qc_of_Z n))
  /\ (exists r : RiskLevel.t, AppState.riskLevel st = RiskLevel.value r)
  /\ (exists q : Qc,
        AppState.contractualRiskPercent st = Fin q /\ 0 <= q /\ q <= Q2Qc 20)
  /\ (exists n : Z, (0 <= n)%Z /\ AppState.desiredNetIncome st = Fin (Qc_of_Z n)).

(** ** App.tsx: the forward calculation in binary64

    The body of [results] once more, evaluated with the primitive binary64
    operations, rounding included: what the source computes on finite
    numbers, bit for bit. *)
Record CalculationResults64 : Type := {
  contractValue64 : float;
  ibc64 : float;
  health64 : float;
  pension64 : float;
  arl64 : float;
  vacationProvision64 : float;
  severanceProvision64 : float;
  contractualRiskProvision64 : float;
  totalSocialSecurity64 : float;
  totalProvisions64 : float;
  totalCosts64 : float;
  netIncome64 : float;
  nonDisposablePercent64 : float
}.

Definition ARL_RATES64 (riskLevel : RiskLevel.t) : float :=
  match riskLevel with
  | RiskLevel.I => 0.00522%float
  | RiskLevel.II => 0.01044%float
  | RiskLevel.III => 0.02436%float
  | RiskLevel.IV => 0.04350%float
  | RiskLevel.V => 0.06960%float
  end.

Definition results64 (contractValue : float) (riskLevel : RiskLevel.t)
    (contractualRiskPercent : float) : CalculationResults64 :=
  let ibc := (contractValue * 0.40)%float in
  let health := (ibc * 0.125)%float in
  let pension := (ibc * 0.16)%float in
  let arl := (ibc * ARL_RATES64 riskLevel)%float in
  let vacationProvision := (contractValue * 0.0417)%float in
  let severanceProvision := (contractValue * 0.0933)%float in
  let contractualRiskRate := (contractualRiskPercent / 100)%float in
  let contractualRiskProvision := (contractValue * contractualRiskRate)%float in
  let totalSocialSecurity := (health + pension + arl)%float in
  let totalProvisions :=
    (vacationProvision + severanceProvision + contractualRiskProvision)%float in
  let totalCosts := (totalSocialSecurity + totalProvisions)%float in
  let netIncome := (contractValue - totalCosts)%float in
  let nonDisposablePercent :=
    if (0 <? contractValue)%float
    then (totalCosts / contractValue * 100)%float
    else 0%float in
  {| contractValue64 := contractValue;
     ibc64 := ibc;
     health64 := health;
     pension64 := pension;
     arl64 := arl;
     vacationProvision64 := vacationProvision;
     severanceProvision64 := severanceProvision;
     contractualRiskProvision64 := contractualRiskProvision;
     totalSocialSecurity64 := totalSocialSecurity;
     totalProvisions64 := totalProvisions;
     totalCosts64 := totalCosts;
     netIncome64 := netIncome;
     nonDisposablePercent64 := nonDisposablePercent |}.

Record SimulatorResults64 : Type := {
  requiredGross64 : float;
  difference64 : float
}.

(** The body of [simulatorResults] in binary64. *)
Definition simulatorResults64 (desiredNetIncome : float)
    (results : CalculationResults64) : SimulatorResults64 :=
  let costFactor :=
    if (0 <? contractValue64 results)%float
    then (totalCosts64 results / contractValue64 results)%float
    else 0%float in
  let factorRemainder := (1 - costFactor)%float in
  let requiredGross :=
    if (0 <? factorRemainder)%float
    then (desiredNetIncome / factorRemainder)%float
    else 0%float in
  let difference := (requiredGross - contractValue64 results)%float in
  {| requiredGross64 := requiredGross; difference64 := difference |}.

(** ** Completions

    How the evaluation of a function body ends: with a value, or with a
    thrown error.  Neither [results] nor [simulatorResults] contains a
    [throw], and the operations they use (arithmetic, comparison, a property
    read on an object literal) cannot throw. *)
Inductive completion (A : Type) : Type :=
  | Normal (a : A)
  | Throw (error : string).
Arguments Normal {A} a.
Arguments Throw {A} error.

Definition run_rate_lookup (riskLevel : string) : completion (option number) :=
  Normal (ARL_RATES !! riskLevel).

Definition run_results (contractValue : number) (riskLevel : string)
    (contractualRiskPercent : number) : completion CalculationResults :=
  Normal (results_at_key contractValue riskLevel contractualRiskPercent).

Definition run_simulatorResults (desiredNetIncome : number)
    (results : CalculationResults) : completion SimulatorResults :=
  Normal (simulatorResults desiredNetIncome results).

(** ** The algorithm as the specification words it

    The statutory constants as exact fractions, the rate as a function of
    the risk class, and the twelve formulas over exact rationals. *)
Module Spec.
Definition baseIncomeFraction : Qc := Q2Qc 0.40.
Definition healthRate : Qc := Q2Qc 0.125.
Definition pensionRate : Qc := Q2Qc 0.16.
Definition vacationProvisionRate : Qc := Q2Qc 0.0417.
Definition severanceProvisionRate : Qc := Q2Qc 0.0933.

Definition accidentInsuranceRate (riskClass : RiskLevel.t) : Qc :=
  match riskClass with
  | RiskLevel.I => Q2Qc 0.00522
  | RiskLevel.II => Q2Qc 0.01044
  | RiskLevel.III => Q2Qc 0.02436
  | RiskLevel.IV => Q2Qc 0.04350
  | RiskLevel.V => Q2Qc 0.06960
  end.

Definition compute (contractValue : Qc) (riskClass : RiskLevel.t)
    (contractualRiskPercent : Qc) : CalculationResults :=
  let baseIncome := contractValue * baseIncomeFraction in
  let health := baseIncome * healthRate in
  let pension := baseIncome * pensionRate in
  let accidentInsurance := baseIncome * accidentInsuranceRate riskClass in
  let vacationProvision := contractValue * vacationProvisionRate in
  let severanceProvision := contractValue * severanceProvisionRate in
  let contractualRiskProvision :=
    contractValue * (contractualRiskPercent / Q2Qc 100) in
  let totalSocialSecurity := health + pension + accidentInsurance in
  let totalProvisions :=
    vacationProvision + severanceProvision + contractualRiskProvision in
  let totalCosts := totalSocialSecurity + totalProvisions in
  let netIncome := contractValue - totalCosts in
  let nonDisposablePercent :=
    if bool_decide (0 < contractValue)
    then totalCosts / contractValue * Q2Qc 100
    else 0 in
  {| contractValue := Fin contractValue;
     ibc := Fin baseIncome;
     health := Fin health;
     pension := Fin pension;
     arl := Fin accidentInsurance;
     vacationProvision := Fin vacationProvision;
     severanceProvision := Fin severanceProvision;
     contractualRiskProvision := Fin contractualRiskProvision;
     totalSocialSecurity := Fin totalSocialSecurity;
     totalProvisions := Fin totalProvisions;
     totalCosts := Fin totalCosts;
     netIncome := Fin netIncome;
     nonDisposablePercent := Fin nonDisposablePercent |}.

Definition simulate (desiredNetIncome currentContractValue currentTotalCosts : Qc)
    : SimulatorResults :=
  let costFactor :=
    if bool_decide (0 < currentContractValue)
    then currentTotalCosts / currentContractValue
    else 0 in
  let remainder := 1 - costFactor in
  let requiredGross :=
    if bool_decide (0 < remainder) then desiredNetIncome / remainder else 0 in
  {| requiredGross := Fin requiredGross;
     difference := Fin (requiredGross - currentContractValue) |}.

(** The sum of all rates: the part of a contract value that is cost. *)
Definition costRatio (riskClass : RiskLevel.t) (contractualRiskPercent : Qc) : Qc :=
  baseIncomeFraction * (healthRate + pensionRate + accidentInsuranceRate riskClass)
  + vacationProvisionRate + severanceProvisionRate
  + contractualRiskPercent / Q2Qc 100.
End Spec.

(** * Properties *)

(** ** Finite arithmetic *)

Lemma Q2Qc_100_neq_0 : Q2Qc 100 <> 0.
Proof. intros E. apply (f_equal this) in E. discriminate E. Qed.

Lemma Qc_pos_neq_0 (a : Qc) : 0 < a -> a <> 0.
Proof. intros H E. subst a. exact (Qclt_not_eq _ _ H eq_refl). Qed.

Lemma div_fin (a b : Qc) : b <> 0 -> (Fin a / Fin b)%number = Fin (a / b).
Proof. intros H. unfold div. destruct (decide (b = 0)); [contradiction | reflexivity]. Qed.

Lemma div_by_zero_not_finite (a : Qc) (q : Qc) : (Fin a / Fin 0)%number <> Fin q.
Proof.
  unfold div. destruct (decide (0 = 0)) as [_|N]; [|contradiction].
  destruct (decide (a = 0)); [discriminate|].
  destruct (bool_decide (0 < a)); discriminate.
Qed.

Lemma gt_fin (a b : Qc) : (Fin a >? Fin b)%number = bool_decide (b < a).
Proof. reflexivity. Qed.

(** ** The rate table *)

Lemma ARL_RATES_lookup (r : RiskLevel.t) :
  ARL_RATES !! RiskLevel.value r = Some (Fin (Spec.accidentInsuranceRate r)).
Proof. destruct r; vm_compute; reflexivity. Qed.

Lemma prop_number_ARL_RATES (r : RiskLevel.t) :
  prop_number ARL_RATES (RiskLevel.value r) = Fin (Spec.accidentInsuranceRate r).
Proof. unfold prop_number. rewrite ARL_RATES_lookup. reflexivity. Qed.

(** ** The forward calculation on finite inputs *)

Lemma results_exact (v : Qc) (r : RiskLevel.t) (p : Qc) :
  results (Fin v) r (Fin p) = Spec.compute v r p.
Proof.
  unfold results, results_at_key, Spec.compute.
  rewrite prop_number_ARL_RATES.
  unfold IBC_PERCENTAGE, HEALTH_RATE, PENSION_RATE, VACATION_PROVISION_RATE,
    SEVERANCE_PROVISION_RATE, num.
  rewrite (div_fin p _ Q2Qc_100_neq_0).
  cbn [mul add sub neg].
  rewrite gt_fin.
  change (Q2Qc 0) with 0.
  case_bool_decide as Hv.
  - rewrite (div_fin _ v (Qc_pos_neq_0 v Hv)). reflexivity.
  - reflexivity.
Qed.

(** ** The cost ratio *)

Lemma totalCosts_results (v : Qc) (r : RiskLevel.t) (p : Qc) :
  totalCosts (results (Fin v) r (Fin p)) = Fin (v * Spec.costRatio r p).
Proof.
  rewrite results_exact. cbn [Spec.compute totalCosts]. f_equal.
  unfold Spec.costRatio. field. exact Q2Qc_100_neq_0.
Qed.

Lemma netIncome_results (v : Qc) (r : RiskLevel.t) (p : Qc) :
  netIncome (results (Fin v) r (Fin p)) = Fin (v * (1 - Spec.costRatio r p)).
Proof.
  rewrite results_exact. cbn [Spec.compute netIncome]. f_equal.
  unfold Spec.costRatio. field. exact Q2Qc_100_neq_0.
Qed.

(** Order facts about canonical rationals are proved on the underlying
    fractions, where linear arithmetic is decided. *)
Ltac qc_to_q :=
  unfold Qcle, Qclt, Qcdiv, Qcminus in *;
  cbn [this Qcmult Qcplus Qcopp Qcinv Q2Qc] in *;
  rewrite ?Qred_correct in *;
  change (/ 100)%Q with (1 # 100)%Q in *.

Lemma costRatio_upper (r : RiskLevel.t) (p : Qc) :
  p <= Q2Qc 20 -> Spec.costRatio r p <= Q2Qc 0.47684.
Proof.
  intros Hp. unfold Spec.costRatio, Spec.baseIncomeFraction, Spec.healthRate,
    Spec.pensionRate, Spec.vacationProvisionRate, Spec.severanceProvisionRate.
  destruct r; unfold Spec.accidentInsuranceRate; qc_to_q; lra.
Qed.

Lemma costRatio_lower (r : RiskLevel.t) (p : Qc) :
  0 <= p -> Q2Qc 0.251088 <= Spec.costRatio r p.
Proof.
  intros Hp. unfold Spec.costRatio, Spec.baseIncomeFraction, Spec.healthRate,
    Spec.pensionRate, Spec.vacationProvisionRate, Spec.severanceProvisionRate.
  destruct r; unfold Spec.accidentInsuranceRate; qc_to_q; lra.
Qed.

Lemma costRatio_lt_1 (r : RiskLevel.t) (p : Qc) :
  p <= Q2Qc 20 -> Spec.costRatio r p < 1.
Proof.
  intros Hp. apply Qcle_lt_trans with (Q2Qc 0.47684).
  - exact (costRatio_upper r p Hp).
  - reflexivity.
Qed.

Lemma Qc_remainder_pos (k : Qc) : k < 1 -> 0 < 1 - k.
Proof. intros H. qc_to_q. lra. Qed.

Lemma bool_decide_Qclt_true (a b : Qc) : a < b -> bool_decide (a < b) = true.
Proof. intros H. apply bool_decide_eq_true_2. exact H. Qed.

(** ** The simulator on finite inputs *)

Lemma simulatorResults_exact (d c t : Qc) (res : CalculationResults) :
  contractValue res = Fin c -> totalCosts res = Fin t ->
  simulatorResults (Fin d) res = Spec.simulate d c t.
Proof.
  intros Hc Ht.
  unfold simulatorResults, factorRemainder, costFactor, Spec.simulate.
  rewrite Hc, Ht. unfold num. rewrite gt_fin. change (Q2Qc 0) with 0.
  case_bool_decide as Hpos.
  - rewrite (div_fin t c (Qc_pos_neq_0 c Hpos)).
    cbn [sub add neg]. rewrite gt_fin. change (Q2Qc 1 + - (t / c)) with (1 - t / c).
    case_bool_decide as Hrem.
    + rewrite (div_fin d _ (Qc_pos_neq_0 _ Hrem)). reflexivity.
    + reflexivity.
  - cbn [sub add neg]. rewrite gt_fin. change (Q2Qc 1 + - 0) with (1 - 0).
    case_bool_decide as Hrem.
    + rewrite (div_fin d _ (Qc_pos_neq_0 _ Hrem)). reflexivity.
    + reflexivity.
Qed.

(** On a result of the forward calculation at a positive contract value the
    cost factor is the cost ratio, whatever the contract value. *)
Lemma costFactor_results (v : Qc) (r : RiskLevel.t) (p : Qc) :
  0 < v ->
  costFactor (results (Fin v) r (Fin p)) = Fin (Spec.costRatio r p).
Proof.
  intros Hv. unfold costFactor. rewrite totalCosts_results.
  rewrite results_exact. cbn [Spec.compute contractValue].
  unfold num. rewrite gt_fin. change (Q2Qc 0) with 0.
  rewrite (bool_decide_Qclt_true _ _ Hv).
  rewrite (div_fin _ v (Qc_pos_neq_0 v Hv)). f_equal.
  field. exact (Qc_pos_neq_0 v Hv).
Qed.

Lemma factorRemainder_results (v : Qc) (r : RiskLevel.t) (p : Qc) :
  0 < v ->
  factorRemainder (results (Fin v) r (Fin p)) = Fin (1 - Spec.costRatio r p).
Proof.
  intros Hv. unfold factorRemainder. rewrite (costFactor_results v r p Hv).
  reflexivity.
Qed.

Lemma simulatorResults_results (d v : Qc) (r : RiskLevel.t) (p : Qc) :
  0 < v -> p <= Q2Qc 20 ->
  simulatorResults (Fin d) (results (Fin v) r (Fin p))
  = {| requiredGross := Fin (d / (1 - Spec.costRatio r p));
       difference := Fin (d / (1 - Spec.costRatio r p) - v) |}.
Proof.
  intros Hv Hp.
  pose proof (Qc_remainder_pos _ (costRatio_lt_1 r p Hp)) as Hrem.
  unfold simulatorResults. rewrite (factorRemainder_results v r p Hv).
  unfold num. rewrite gt_fin. change (Q2Qc 0) with 0.
  rewrite (bool_decide_Qclt_true _ _ Hrem).
  rewrite (div_fin d _ (Qc_pos_neq_0 _ Hrem)).
  rewrite results_exact. reflexivity.
Qed.

Lemma Fin_eq (a b : Qc) : (this a == this b)%Q -> Fin a = Fin b.
Proof. intros H. f_equal. apply Qc_is_canon. exact H. Qed.

(** The keys of the rate table are the five enum values and no other. *)
Lemma ARL_RATES_keys (key : string) :
  ARL_RATES !! key = None <-> ~ In key (map RiskLevel.value RiskLevel.all).
Proof.
  unfold ARL_RATES. cbn [map RiskLevel.all RiskLevel.value In]. split.
  - intros Hnone Hin.
    destruct Hin as [<-|[<-|[<-|[<-|[<-|[]]]]]]; vm_compute in Hnone; discriminate Hnone.
  - intros Hout.
    rewrite !lookup_insert_ne by (intros E; subst key; tauto).
    apply lookup_singleton_ne. intros E. subst key. tauto.
Qed.

(** ** The monetary input parser *)

Lemma is_digit_value (c : ascii) :
  is_digit c = true -> (0 <= Z.of_nat (nat_of_ascii c) - 48 <= 9)%Z.
Proof.
  unfold is_digit. intros H. apply andb_prop in H as [Hlo Hhi].
  apply Nat.leb_le in Hlo. apply Nat.leb_le in Hhi. lia.
Qed.

Lemma parse_digits_nonneg (s : string) :
  forall acc : Z, (0 <= acc)%Z -> (0 <= parse_digits acc (strip_non_digits s))%Z.
Proof.
  induction s as [|c rest IH]; intros acc Hacc; cbn [strip_non_digits].
  - exact Hacc.
  - destruct (is_digit c) eqn:Hc.
    + cbn [parse_digits]. apply IH. pose proof (is_digit_value c Hc). lia.
    + apply IH. exact Hacc.
Qed.

Lemma Qc_of_Z_nonneg (n : Z) : (0 <= n)%Z -> 0 <= Qc_of_Z n.
Proof.
  intros H. unfold Qcle, Qc_of_Z. cbn [this Q2Qc]. rewrite ?Qred_correct.
  unfold Qle. cbn [Qnum Qden inject_Z]. lia.
Qed.

Lemma round_to_binary64_exact (n : Z) :
  (n < 2 ^ 53)%Z -> round_to_binary64 n = Fin (Qc_of_Z n).
Proof.
  intros H. unfold round_to_binary64.
  rewrite (proj2 (Z.ltb_lt n (2 ^ 53)) H). reflexivity.
Qed.

Lemma Z_div_pow2_nonneg (n e : Z) : (0 <= n)%Z -> (0 <= n / 2 ^ e)%Z.
Proof.
  intros Hn. pose proof (Z.pow_nonneg 2 e ltac:(lia)) as Hp.
  destruct (Z.eq_dec (2 ^ e)%Z 0%Z) as [E|E].
  - rewrite E, Z.div_0_r. lia.
  - apply Z.div_pos; lia.
Qed.

(** Rounding keeps an integer that is not negative finite and not
    negative, or makes it [+Infinity]; it never makes [NaN]. *)
Lemma round_to_binary64_in_range (n : Z) :
  (0 <= n)%Z -> amount_in_range (round_to_binary64 n).
Proof.
  intros Hn. unfold round_to_binary64, amount_in_range.
  destruct (n <? 2 ^ 53)%Z.
  - left. exists (Qc_of_Z n). split; [reflexivity | exact (Qc_of_Z_nonneg n Hn)].
  - cbv zeta.
    pose proof (Z_div_pow2_nonneg n (Z.log2 n - 52) Hn) as Hq.
    pose proof (Z.pow_nonneg 2 (Z.log2 n - 52) ltac:(lia)) as Hp.
    set (e := (Z.log2 n - 52)%Z) in *.
    set (q := (n / 2 ^ e)%Z) in *.
    set (m := if (n mod 2 ^ e <? 2 ^ (e - 1))%Z then q
              else if (2 ^ (e - 1) <? n mod 2 ^ e)%Z then (q + 1)%Z
                   else if Z.even q then q else (q + 1)%Z).
    assert (Hm : (0 <= m)%Z).
    { subst m. destruct (n mod 2 ^ e <? 2 ^ (e - 1))%Z; [lia|].
      destruct (2 ^ (e - 1) <? n mod 2 ^ e)%Z; [lia|].
      destruct (Z.even q); lia. }
    destruct (2 ^ 1024 <=? m * 2 ^ e)%Z.
    + right. reflexivity.
    + left. exists (Qc_of_Z (m * 2 ^ e)). split; [reflexivity|].
      apply Qc_of_Z_nonneg. apply Z.mul_nonneg_nonneg; assumption.
Qed.

Lemma strip_non_digits_app (s t : string) :
  strip_non_digits (String.append s t)
  = String.append (strip_non_digits s) (strip_non_digits t).
Proof.
  induction s as [|c rest IH]; simpl.
  - reflexivity.
  - destruct (is_digit c); simpl; rewrite IH; reflexivity.
Qed.

Lemma parse_digits_app (s t : string) :
  forall acc : Z,
    parse_digits acc (String.append s t) = parse_digits (parse_digits acc s) t.
Proof.
  induction s as [|c rest IH]; intros acc; simpl.
  - reflexivity.
  - apply IH.
Qed.

(** The value of a display string: the Number nearest to its digits read
    in base ten. *)
Lemma parseInputValue_value (displayVal : string) :
  parseInputValue displayVal
  = round_to_binary64 (parse_digits 0 (strip_non_digits displayVal)).
Proof.
  unfold parseInputValue, parseInt10. destruct (strip_non_digits displayVal).
  - cbn [parse_digits]. rewrite round_to_binary64_exact by reflexivity.
    apply Fin_eq. reflexivity.
  - reflexivity.
Qed.

Lemma parseInputValue_in_range (displayVal : string) :
  amount_in_range (parseInputValue displayVal).
Proof.
  rewrite parseInputValue_value. apply round_to_binary64_in_range.
  apply parse_digits_nonneg. lia.
Qed.

(** A string of [k] digits denotes an integer below [10^k]. *)
Lemma parse_digits_bound (s : string) :
  forall acc : Z,
    (0 <= acc)%Z ->
    (parse_digits acc (strip_non_digits s)
     < (acc + 1) * 10 ^ Z.of_nat (String.length (strip_non_digits s)))%Z.
Proof.
  induction s as [|c rest IH]; intros acc Hacc; cbn [strip_non_digits].
  - cbn [parse_digits String.length Z.of_nat]. lia.
  - destruct (is_digit c) eqn:Hc.
    + cbn [parse_digits String.length]. pose proof (is_digit_value c Hc) as Hd.
      specialize (IH (10 * acc + (Z.of_nat (nat_of_ascii c) - 48))%Z ltac:(lia)).
      rewrite Nat2Z.inj_succ, Z.pow_succ_r by lia.
      pose proof (Z.pow_pos_nonneg 10 (Z.of_nat (String.length (strip_non_digits rest)))
                    ltac:(lia) ltac:(lia)) as Hpow.
      nia.
    + apply IH. exact Hacc.
Qed.

(** Up to fifteen digits are read exactly. *)
Lemma parseInputValue_fits (displayVal : string) :
  (String.length (strip_non_digits displayVal) <= 15)%nat ->
  (0 <= parse_digits 0 (strip_non_digits displayVal) < 2 ^ 53)%Z
  /\ parseInputValue displayVal
     = Fin (Qc_of_Z (parse_digits 0 (strip_non_digits displayVal))).
Proof.
  intros Hlen.
  pose proof (parse_digits_nonneg displayVal 0%Z ltac:(lia)) as Hlo.
  pose proof (parse_digits_bound displayVal 0%Z ltac:(lia)) as Hhi.
  assert (Hpow : (10 ^ Z.of_nat (String.length (strip_non_digits displayVal))
                  <= 10 ^ 15)%Z)
    by (apply Z.pow_le_mono_r; lia).
  assert (H53 : (10 ^ 15 < 2 ^ 53)%Z) by reflexivity.
  assert (Hlt : (parse_digits 0 (strip_non_digits displayVal) < 2 ^ 53)%Z) by lia.
  split; [lia|].
  rewrite parseInputValue_value. apply round_to_binary64_exact. exact Hlt.
Qed.

Lemma nonDisposablePercent_not_positive (v : Qc) (r : RiskLevel.t) (p : Qc) :
  v <= 0 -> nonDisposablePercent (results (Fin v) r (Fin p)) = Fin 0.
Proof.
  intros Hv. rewrite results_exact. cbn [Spec.compute nonDisposablePercent].
  rewrite bool_decide_eq_false_2; [reflexivity|].
  apply Qcle_not_lt. exact Hv.
Qed.

Lemma Fin_neq (a b : Qc) : ~ (this a == this b)%Q -> Fin a <> Fin b.
Proof. intros H E. apply H. injection E as ->. reflexivity. Qed.

Lemma Normal_neq {A : Type} (a b : A) : a <> b -> Normal a <> Normal b.
Proof. intros H E. apply H. injection E as ->. reflexivity. Qed.

Lemma contractValue_neq (a b : CalculationResults) :
  contractValue a <> contractValue b -> a <> b.
Proof. intros H E. apply H. rewrite E. reflexivity. Qed.

Lemma requiredGross_neq (a b : SimulatorResults) :
  requiredGross a <> requiredGross b -> a <> b.
Proof. intros H E. apply H. rewrite E. reflexivity. Qed.

Lemma SimulatorResults_eq (g g' d d' : Qc) :
  (this g == this g')%Q -> (this d == this d')%Q ->
  {| requiredGross := Fin g; difference := Fin d |}
  = {| requiredGross := Fin g'; difference := Fin d' |}.
Proof. intros Hg Hd. rewrite (Fin_eq _ _ Hg), (Fin_eq _ _ Hd). reflexivity. Qed.

(** ** The quotient of total costs by contract value *)


Lemma lt_fin (a b : Qc) : (Fin a <? Fin b)%number = bool_decide (a < b).
Proof. reflexivity. Qed.

(** The nonDisposablePercent of the worked example, exactly. *)
Lemma worked_example_nonDisposablePercent :
  nonDisposablePercent (results (num 3200000) RiskLevel.I (num 10)) = num 35.1088.
Proof.
  unfold num. rewrite results_exact. cbn [Spec.compute nonDisposablePercent].
  rewrite bool_decide_eq_true_2 by (vm_compute; reflexivity).
  apply Fin_eq. vm_compute. reflexivity.
Qed.

Lemma nonDisposablePercent_results (v : Qc) (r : RiskLevel.t) (p : Qc) :
  0 < v ->
  nonDisposablePercent (results (Fin v) r (Fin p))
  = Fin (Spec.costRatio r p * Q2Qc 100).
Proof.
  intros Hv. rewrite results_exact. cbn [Spec.compute nonDisposablePercent].
  rewrite (bool_decide_Qclt_true _ _ Hv). f_equal.
  unfold Spec.costRatio. field.
  split; [exact Q2Qc_100_neq_0 | exact (Qc_pos_neq_0 v Hv)].
Qed.

(** ** The percentage handler

    Whatever [parseFloat] returned, the percentage handed to the engine is
    finite and lies in [0,20]: the range assumed of the percentage in the
    statements below is what the caller of the engine establishes. *)
Lemma handleRiskChange_range (parsed : number) :
  exists q : Qc, handleRiskChange parsed = Fin q /\ 0 <= q /\ q <= Q2Qc 20.
Proof.
  assert (H20 : 0 <= Q2Qc 20) by (vm_compute; discriminate).
  unfold handleRiskChange, lt, num. destruct parsed as [q| | |]; cbn [isNaN].
  - rewrite gt_fin. case_bool_decide as Hhi.
    + exists (Q2Qc 20). rewrite gt_fin.
      rewrite bool_decide_eq_false_2 by (apply Qcle_not_lt; exact H20).
      split; [reflexivity | split; [exact H20 | apply Qcle_refl]].
    + rewrite gt_fin. case_bool_decide as Hlo.
      * exists (Q2Qc 0). split; [reflexivity | split; [apply Qcle_refl | exact H20]].
      * exists q. split; [reflexivity | split; apply Qcnot_lt_le; assumption].
  - exists (Q2Qc 20). cbn [gt].
    rewrite bool_decide_eq_false_2 by (apply Qcle_not_lt; exact H20).
    split; [reflexivity | split; [exact H20 | apply Qcle_refl]].
  - exists (Q2Qc 0). cbn [gt]. split; [reflexivity | split; [apply Qcle_refl | exact H20]].
  - exists (Q2Qc 0).
    split; [vm_compute; reflexivity | split; [apply Qcle_refl | exact H20]].
Qed.

Example parseInputValue_display : parseInputValue "3.200.000" = num 3200000.
Proof.
  rewrite parseInputValue_value, round_to_binary64_exact by reflexivity.
  apply Fin_eq. vm_compute. reflexivity.
Qed.

Example parseInputValue_minus_sign : parseInputValue "-5000" = num 5000.
Proof.
  rewrite parseInputValue_value, round_to_binary64_exact by reflexivity.
  apply Fin_eq. vm_compute. reflexivity.
Qed.

(** Above [2^53] the digits are rounded: the odd integer [2^53 + 1] reads
    as [2^53]. *)
Example parseInputValue_rounds :
  parseInputValue "9007199254740993" = num 9007199254740992.
Proof.
  rewrite parseInputValue_value. unfold round_to_binary64.
  replace (parse_digits 0 (strip_non_digits "9007199254740993"))
    with 9007199254740993%Z by reflexivity.
  apply Fin_eq. vm_compute. reflexivity.
Qed.

Example parseInputValue_no_digit : parseInputValue "abc" = num 0.
Proof. reflexivity. Qed.

Example results_class_V :
  arl (results (num 5000000) RiskLevel.V (num 0)) = num 139200
  /\ contractualRiskProvision (results (num 5000000) RiskLevel.V (num 0)) = num 0.
Proof.
  unfold num. rewrite results_exact. cbn [Spec.compute arl contractualRiskProvision].
  split; apply Fin_eq; vm_compute; reflexivity.
Qed.

(** ** Binary64 samples

    What rounding does to the equalities of exact arithmetic: the values
    agree to the last places only. *)
Example nonDisposablePercent64_samples :
  nonDisposablePercent64 (results64 1000 RiskLevel.I 10) = 35.108799999999995%float
  /\ nonDisposablePercent64 (results64 3200000 RiskLevel.I 10) = 35.1088%float.
Proof. split; vm_compute; reflexivity. Qed.

Example requiredGross64_samples :
  requiredGross64 (simulatorResults64 2800000 (results64 1000 RiskLevel.I 10))
  = 4314914.811253297%float
  /\ requiredGross64 (simulatorResults64 2800000 (results64 3200000 RiskLevel.I 10))
     = 4314914.811253298%float.
Proof. split; vm_compute; reflexivity. Qed.

Example netIncome64_at_requiredGross :
  requiredGross64 (simulatorResults64 2000000 (results64 3200000 RiskLevel.I 10))
  = 3082082.00803807%float
  /\ netIncome64 (results64 3082082.00803807 RiskLevel.I 10)
     = 2000000.0000000002%float.
Proof. split; vm_compute; reflexivity. Qed.

(** * The claims *)

(** C1.  For every finite contract value [v >= 0], every risk level and
    every contractual-risk percentage in [0,20], [results] returns exactly
    the record of the specification's algorithm with the statutory
    constants: [ibc = v*0.40], [health = ibc*0.125], [pension = ibc*0.16],
    [arl = ibc * rate(riskLevel)] with the five tabulated rates, the two
    provisions at [0.0417] and [0.0933] of [v], the contractual-risk
    provision at [v * (percent/100)], the three totals, [netIncome] and
    the guarded [nonDisposablePercent]. *)
Theorem C1_results_follow_the_algorithm (v : Qc) (r : RiskLevel.t) (p : Qc) :
  0 <= v -> 0 <= p -> p <= Q2Qc 20 ->
  results (Fin v) r (Fin p) = Spec.compute v r p.
Proof. intros _ _ _. apply results_exact. Qed.

Lemma C1_witness :
  0 <= Q2Qc 5000000 /\ 0 <= Q2Qc 0 /\ Q2Qc 0 <= Q2Qc 20
  /\ results (Fin (Q2Qc 5000000)) RiskLevel.V (Fin (Q2Qc 0))
     = Spec.compute (Q2Qc 5000000) RiskLevel.V (Q2Qc 0).
Proof.
  assert (H1 : 0 <= Q2Qc 5000000) by (vm_compute; discriminate).
  assert (H2 : 0 <= Q2Qc 0) by (vm_compute; discriminate).
  assert (H3 : Q2Qc 0 <= Q2Qc 20) by (vm_compute; discriminate).
  split; [exact H1 | split; [exact H2 | split; [exact H3 |]]].
  exact (C1_results_follow_the_algorithm _ RiskLevel.V _ H1 H2 H3).
Defined.

(** C2.  For every finite desired net income and every result record whose
    contract value and total costs are finite, [simulatorResults] returns
    exactly: with [costFactor = totalCosts / contractValue] when
    [contractValue > 0] and [0] otherwise, and [remainder = 1 - costFactor],
    [requiredGross = desiredNetIncome / remainder] if [remainder > 0] and
    [0] otherwise, and [difference = requiredGross - contractValue]. *)
Theorem C2_simulator_follows_the_algorithm (d c t : Qc) (res : CalculationResults) :
  contractValue res = Fin c -> totalCosts res = Fin t ->
  simulatorResults (Fin d) res = Spec.simulate d c t.
Proof. apply simulatorResults_exact. Qed.

Lemma C2_witness :
  simulatorResults (Fin (Q2Qc 2800000))
    (results (Fin (Q2Qc 3200000)) RiskLevel.I (Fin (Q2Qc 10)))
  = Spec.simulate (Q2Qc 2800000) (Q2Qc 3200000)
      (Q2Qc 3200000 * Spec.costRatio RiskLevel.I (Q2Qc 10)).
Proof.
  apply (C2_simulator_follows_the_algorithm (Q2Qc 2800000) (Q2Qc 3200000)
           (Q2Qc 3200000 * Spec.costRatio RiskLevel.I (Q2Qc 10))).
  - rewrite results_exact. reflexivity.
  - apply totalCosts_results.
Defined.

(** C3.  For every finite contract value [v >= 0], every risk level and
    every finite percentage, the result satisfies both conservation
    identities: [totalCosts = totalSocialSecurity + totalProvisions] and
    [netIncome + totalCosts = contractValue], the contract value being the
    input [v] (which the record carries unchanged), as equations of the
    embedded (exact) arithmetic. *)
Theorem C3_conservation (v : Qc) (r : RiskLevel.t) (p : Qc) :
  0 <= v ->
  totalCosts (results (Fin v) r (Fin p))
  = (totalSocialSecurity (results (Fin v) r (Fin p))
     + totalProvisions (results (Fin v) r (Fin p)))%number
  /\ (netIncome (results (Fin v) r (Fin p))
      + totalCosts (results (Fin v) r (Fin p)))%number
     = Fin v
  /\ contractValue (results (Fin v) r (Fin p)) = Fin v.
Proof.
  intros _. rewrite results_exact. split; [|split].
  - reflexivity.
  - cbn [Spec.compute netIncome totalCosts add]. f_equal. ring.
  - reflexivity.
Qed.

Lemma C3_witness :
  0 <= Q2Qc 3200000
  /\ (netIncome (results (Fin (Q2Qc 3200000)) RiskLevel.III (Fin (Q2Qc 7)))
      + totalCosts (results (Fin (Q2Qc 3200000)) RiskLevel.III (Fin (Q2Qc 7))))%number
     = Fin (Q2Qc 3200000).
Proof.
  assert (H : 0 <= Q2Qc 3200000) by (vm_compute; discriminate).
  split; [exact H|].
  exact (proj1 (proj2 (C3_conservation (Q2Qc 3200000) RiskLevel.III (Q2Qc 7) H))).
Defined.

(** C4.  Round trip: for every finite contract value [v > 0], every risk
    level and every percentage in [0,20], simulating with the desired net
    income set to the computed net income gives back the contract value as
    the required gross value (exactly, over the rationals). *)
Theorem C4_round_trip (v : Qc) (r : RiskLevel.t) (p : Qc) :
  0 < v -> 0 <= p -> p <= Q2Qc 20 ->
  requiredGross
    (simulatorResults (netIncome (results (Fin v) r (Fin p)))
       (results (Fin v) r (Fin p)))
  = contractValue (results (Fin v) r (Fin p)).
Proof.
  intros Hv _ Hp.
  pose proof (Qc_remainder_pos _ (costRatio_lt_1 r p Hp)) as Hrem.
  rewrite netIncome_results, (simulatorResults_results _ v r p Hv Hp).
  rewrite results_exact. cbn [requiredGross Spec.compute contractValue].
  f_equal. field. exact (Qc_pos_neq_0 _ Hrem).
Qed.

Lemma C4_witness :
  0 < Q2Qc 3200000 /\ 0 <= Q2Qc 10 /\ Q2Qc 10 <= Q2Qc 20
  /\ requiredGross
       (simulatorResults
          (netIncome (results (Fin (Q2Qc 3200000)) RiskLevel.I (Fin (Q2Qc 10))))
          (results (Fin (Q2Qc 3200000)) RiskLevel.I (Fin (Q2Qc 10))))
     = contractValue (results (Fin (Q2Qc 3200000)) RiskLevel.I (Fin (Q2Qc 10))).
Proof.
  assert (H1 : 0 < Q2Qc 3200000) by (vm_compute; reflexivity).
  assert (H2 : 0 <= Q2Qc 10) by (vm_compute; discriminate).
  assert (H3 : Q2Qc 10 <= Q2Qc 20) by (vm_compute; discriminate).
  split; [exact H1 | split; [exact H2 | split; [exact H3 |]]].
  exact (C4_round_trip _ RiskLevel.I _ H1 H2 H3).
Defined.

(** C5 fails on the code: the key ["VI"] is none of the five levels, yet the
    lookup completes normally with [undefined] and the forward calculation
    completes normally with a record (whose accident-insurance figure and
    everything summed from it is [NaN]); nothing is thrown. *)
Lemma C5_counterexample :
  ~ In "VI" (map RiskLevel.value RiskLevel.all)
  /\ run_rate_lookup "VI" = Normal None
  /\ ~ (exists e, run_results (num 3200000) "VI" (num 10) = Throw e)
  /\ run_results (num 3200000) "VI" (num 10)
     = Normal {| contractValue := num 3200000;
                 ibc := num 1280000;
                 health := num 160000;
                 pension := num 204800;
                 arl := NaN;
                 vacationProvision := num 133440;
                 severanceProvision := num 298560;
                 contractualRiskProvision := num 320000;
                 totalSocialSecurity := NaN;
                 totalProvisions := num 752000;
                 totalCosts := NaN;
                 netIncome := NaN;
                 nonDisposablePercent := NaN |}.
Proof.
  split; [|split; [|split]].
  - cbn. intros [H|[H|[H|[H|[H|[]]]]]]; discriminate H.
  - reflexivity.
  - intros [e He]. discriminate He.
  - unfold run_results. f_equal.
    unfold results_at_key, prop_number.
    replace (ARL_RATES !! "VI") with (@None number) by (vm_compute; reflexivity).
    unfold IBC_PERCENTAGE, HEALTH_RATE, PENSION_RATE, VACATION_PROVISION_RATE,
      SEVERANCE_PROVISION_RATE, num.
    rewrite (div_fin _ _ Q2Qc_100_neq_0).
    cbn [mul add sub neg gt div].
    f_equal; apply Fin_eq; reflexivity.
Qed.

(** C5, amended.  The risk level is the closed five-member enum: on each
    of its members the rate lookup completes normally with the tabulated
    rate, the forward calculation completes normally with the record of
    the algorithm, and every key is one of the five enum values or has no
    rate (there is no default rate). *)
Theorem C5_lookup_total_on_the_enum (r : RiskLevel.t) (v p : Qc) :
  run_rate_lookup (RiskLevel.value r)
  = Normal (Some (Fin (Spec.accidentInsuranceRate r)))
  /\ run_results (Fin v) (RiskLevel.value r) (Fin p) = Normal (Spec.compute v r p)
  /\ (forall key : string,
        In key (map RiskLevel.value RiskLevel.all) \/ ARL_RATES !! key = None).
Proof.
  split; [|split].
  - unfold run_rate_lookup. rewrite ARL_RATES_lookup. reflexivity.
  - unfold run_results. f_equal. apply (results_exact v r p).
  - intros key.
    destruct (in_dec string_dec key (map RiskLevel.value RiskLevel.all)) as [Hin|Hout].
    + left. exact Hin.
    + right. apply ARL_RATES_keys. exact Hout.
Qed.

(** C6 fails on the code: a contract value of [-100] is neither rejected
    nor clamped to [0] (the record keeps [-100] and every figure is
    negative), and a desired net income of [-100] is neither rejected nor
    clamped (the required gross value is negative). *)
Lemma C6_counterexample :
  ~ (exists e, run_results (num (-100)) (RiskLevel.value RiskLevel.I) (num 10) = Throw e)
  /\ run_results (num (-100)) (RiskLevel.value RiskLevel.I) (num 10)
     <> run_results (num 0) (RiskLevel.value RiskLevel.I) (num 10)
  /\ run_results (num (-100)) (RiskLevel.value RiskLevel.I) (num 10)
     = Normal {| contractValue := num (-100);
                 ibc := num (-40);
                 health := num (-5);
                 pension := num (-6.4);
                 arl := num (-0.2088);
                 vacationProvision := num (-4.17);
                 severanceProvision := num (-9.33);
                 contractualRiskProvision := num (-10);
                 totalSocialSecurity := num (-11.6088);
                 totalProvisions := num (-23.5);
                 totalCosts := num (-35.1088);
                 netIncome := num (-64.8912);
                 nonDisposablePercent := num 0 |}
  /\ ~ (exists e, run_simulatorResults (num (-100))
                    (results (num 3200000) RiskLevel.I (num 10)) = Throw e)
  /\ run_simulatorResults (num (-100)) (results (num 3200000) RiskLevel.I (num 10))
     <> run_simulatorResults (num 0) (results (num 3200000) RiskLevel.I (num 10))
  /\ run_simulatorResults (num (-100)) (results (num 3200000) RiskLevel.I (num 10))
     = Normal {| requiredGross := num (-6250000 # 40557);
                 difference := num (-129788650000 # 40557) |}.
Proof.
  assert (Hp : Q2Qc 10 <= Q2Qc 20) by (vm_compute; discriminate).
  assert (Hv : 0 < Q2Qc 3200000) by (vm_compute; reflexivity).
  pose proof (simulatorResults_results (Q2Qc (-100)) _ RiskLevel.I _ Hv Hp) as Hsim.
  pose proof (simulatorResults_results (Q2Qc 0) _ RiskLevel.I _ Hv Hp) as Hsim0.
  unfold run_results, run_simulatorResults.
  repeat match goal with
  | |- context [results_at_key ?x (RiskLevel.value ?r) ?y] =>
      change (results_at_key x (RiskLevel.value r) y) with (results x r y)
  end.
  unfold num in *. rewrite !results_exact.
  split; [|split; [|split; [|split; [|split]]]].
  - intros [e He]. discriminate He.
  - apply Normal_neq, contractValue_neq. cbn [contractValue Spec.compute].
    apply Fin_neq. vm_compute. discriminate.
  - f_equal. unfold Spec.compute.
    rewrite bool_decide_eq_false_2 by (vm_compute; discriminate).
    f_equal; apply Fin_eq; reflexivity.
  - intros [e He]. discriminate He.
  - rewrite <- !results_exact, Hsim, Hsim0.
    apply Normal_neq, requiredGross_neq. cbn [requiredGross].
    apply Fin_neq. vm_compute. discriminate.
  - rewrite <- !results_exact, Hsim. apply (f_equal Normal).
    apply SimulatorResults_eq; reflexivity.
Qed.

(** C6, amended.  The engine neither rejects nor clamps a negative
    monetary input: for a contract value [v < 0] the forward calculation
    completes normally with the record of the same formulas, keeping [v],
    with [nonDisposablePercent = 0] by the [contractValue > 0] guard; for a
    desired net income [d < 0] the simulation completes normally with the
    result of the same algorithm, whose only guards are the two on the
    contract value and on the remainder. *)
Theorem C6_negative_input_is_computed
    (v p d c t : Qc) (r : RiskLevel.t) (res : CalculationResults) :
  v < 0 -> d < 0 -> contractValue res = Fin c -> totalCosts res = Fin t ->
  run_results (Fin v) (RiskLevel.value r) (Fin p) = Normal (Spec.compute v r p)
  /\ contractValue (results (Fin v) r (Fin p)) = Fin v
  /\ nonDisposablePercent (results (Fin v) r (Fin p)) = Fin 0
  /\ run_simulatorResults (Fin d) res = Normal (Spec.simulate d c t).
Proof.
  intros Hv _ Hc Ht. split; [|split; [|split]].
  - unfold run_results. apply (f_equal Normal). apply (results_exact v r p).
  - rewrite results_exact. reflexivity.
  - apply nonDisposablePercent_not_positive. apply Qclt_le_weak. exact Hv.
  - unfold run_simulatorResults. apply (f_equal Normal).
    apply simulatorResults_exact; assumption.
Qed.

Lemma C6_witness :
  Q2Qc (-100) < 0 /\ Q2Qc (-2800000) < 0
  /\ contractValue (results (Fin (Q2Qc (-100))) RiskLevel.II (Fin (Q2Qc 10)))
     = Fin (Q2Qc (-100))
  /\ nonDisposablePercent (results (Fin (Q2Qc (-100))) RiskLevel.II (Fin (Q2Qc 10)))
     = Fin 0.
Proof.
  assert (H1 : Q2Qc (-100) < 0) by (vm_compute; reflexivity).
  assert (H2 : Q2Qc (-2800000) < 0) by (vm_compute; reflexivity).
  assert (H3 : contractValue (results (Fin (Q2Qc 3200000)) RiskLevel.I (Fin (Q2Qc 10)))
               = Fin (Q2Qc 3200000))
    by (rewrite results_exact; reflexivity).
  pose proof (totalCosts_results (Q2Qc 3200000) RiskLevel.I (Q2Qc 10)) as H4.
  pose proof (C6_negative_input_is_computed (Q2Qc (-100)) (Q2Qc 10)
                (Q2Qc (-2800000)) _ _ RiskLevel.II _ H1 H2 H3 H4)
    as (_ & Hcv & Hndp & _).
  split; [exact H1 | split; [exact H2 | split; [exact Hcv | exact Hndp]]].
Defined.

(** C7.  At a contract value of [0], for every risk level and every
    percentage in [0,20], every field of the result is [0].  In particular
    [nonDisposablePercent] is [0]: the guard [contractValue > 0] is false, so
    the quotient [totalCosts / contractValue] (which is [NaN] at this input)
    is not what the field holds. *)
Theorem C7_zero_contract_value (r : RiskLevel.t) (p : Qc) :
  0 <= p -> p <= Q2Qc 20 ->
  results (Fin 0) r (Fin p)
  = {| contractValue := Fin 0;
       ibc := Fin 0;
       health := Fin 0;
       pension := Fin 0;
       arl := Fin 0;
       vacationProvision := Fin 0;
       severanceProvision := Fin 0;
       contractualRiskProvision := Fin 0;
       totalSocialSecurity := Fin 0;
       totalProvisions := Fin 0;
       totalCosts := Fin 0;
       netIncome := Fin 0;
       nonDisposablePercent := Fin 0 |}
  /\ (contractValue (results (Fin 0) r (Fin p)) >? num 0)%number = false
  /\ (totalCosts (results (Fin 0) r (Fin p))
      / contractValue (results (Fin 0) r (Fin p)))%number = NaN.
Proof.
  intros _ _.
  assert (Htc : totalCosts (results (Fin 0) r (Fin p)) = Fin 0).
  { rewrite totalCosts_results. f_equal. ring. }
  assert (Hcv : contractValue (results (Fin 0) r (Fin p)) = Fin 0).
  { rewrite results_exact. reflexivity. }
  split; [|split].
  - rewrite results_exact. unfold Spec.compute.
    rewrite bool_decide_eq_false_2 by (apply Qcle_not_lt, Qcle_refl).
    f_equal; f_equal; ring.
  - rewrite Hcv. reflexivity.
  - rewrite Htc, Hcv. reflexivity.
Qed.

Lemma C7_witness :
  0 <= Q2Qc 12.5 /\ Q2Qc 12.5 <= Q2Qc 20
  /\ nonDisposablePercent (results (Fin 0) RiskLevel.IV (Fin (Q2Qc 12.5))) = Fin 0.
Proof.
  assert (H1 : 0 <= Q2Qc 12.5) by (vm_compute; discriminate).
  assert (H2 : Q2Qc 12.5 <= Q2Qc 20) by (vm_compute; discriminate).
  split; [exact H1 | split; [exact H2 |]].
  exact (f_equal nonDisposablePercent
           (proj1 (C7_zero_contract_value RiskLevel.IV (Q2Qc 12.5) H1 H2))).
Defined.



(** C9.  The worked example: a contract value of 3,200,000 at risk level I
    with a contractual-risk percentage of 10 gives [ibc = 1,280,000],
    [health = 160,000], [pension = 204,800], [arl = 6,681.6],
    [totalSocialSecurity = 371,481.6], [vacationProvision = 133,440],
    [severanceProvision = 298,560], [contractualRiskProvision = 320,000],
    [totalProvisions = 752,000], [totalCosts = 1,123,481.6],
    [netIncome = 2,076,518.4] and [nonDisposablePercent = 35.1088], which
    is 35.11 to two decimals. *)
Theorem C9_worked_example :
  results (num 3200000) RiskLevel.I (num 10)
  = {| contractValue := num 3200000;
       ibc := num 1280000;
       health := num 160000;
       pension := num 204800;
       arl := num 6681.6;
       vacationProvision := num 133440;
       severanceProvision := num 298560;
       contractualRiskProvision := num 320000;
       totalSocialSecurity := num 371481.6;
       totalProvisions := num 752000;
       totalCosts := num 1123481.6;
       netIncome := num 2076518.4;
       nonDisposablePercent := num 35.1088 |}
  /\ (nonDisposablePercent (results (num 3200000) RiskLevel.I (num 10))
      >? num 35.105)%number = true
  /\ (nonDisposablePercent (results (num 3200000) RiskLevel.I (num 10))
      <? num 35.115)%number = true.
Proof.
  split; [|split].
  - unfold num. rewrite results_exact. unfold Spec.compute.
    rewrite bool_decide_eq_true_2 by (vm_compute; reflexivity).
    f_equal; apply Fin_eq; vm_compute; reflexivity.
  - rewrite worked_example_nonDisposablePercent. vm_compute. reflexivity.
  - rewrite worked_example_nonDisposablePercent. vm_compute. reflexivity.
Qed.




(** * Further properties of the component *)

(** ** The monetary input parser, continued *)

Lemma parse_digits_of_uint_acc (d : Decimal.uint) :
  forall acc : positive,
    parse_digits (Z.pos acc) (NilEmpty.string_of_uint d)
    = Z.pos (Pos.of_uint_acc d acc).
Proof.
  induction d as [|d IH|d IH|d IH|d IH|d IH|d IH|d IH|d IH|d IH|d IH];
    intros acc; cbn [NilEmpty.string_of_uint parse_digits Pos.of_uint_acc];
    [reflexivity | ..]; rewrite <- IH; f_equal;
    vm_compute (Z.of_nat (nat_of_ascii _)); lia.
Qed.

Lemma parse_digits_of_uint (d : Decimal.uint) :
  parse_digits 0 (NilEmpty.string_of_uint d) = Z.of_N (N.of_uint d).
Proof.
  unfold N.of_uint.
  induction d as [|d IH|d IH|d IH|d IH|d IH|d IH|d IH|d IH|d IH|d IH];
    cbn [NilEmpty.string_of_uint parse_digits Pos.of_uint];
    [reflexivity | exact IH | ..];
    cbn [Z.of_N]; rewrite <- parse_digits_of_uint_acc; f_equal.
Qed.

(** X1.  Reading back a displayed amount: if the digits of the display
    string, taken in order, are the decimal numeral of a natural number
    [n] below [2^53] (whatever separators, signs or other characters stand
    between them), [parseInputValue] returns [n]. *)
Theorem X1_parseInputValue_reads_the_numeral (n : N) (displayVal : string) :
  (Z.of_N n < 2 ^ 53)%Z ->
  strip_non_digits displayVal = NilEmpty.string_of_uint (N.to_uint n) ->
  parseInputValue displayVal = Fin (Qc_of_Z (Z.of_N n)).
Proof.
  intros Hn Hdigits. rewrite parseInputValue_value, Hdigits.
  rewrite parse_digits_of_uint, DecimalN.Unsigned.of_to.
  apply round_to_binary64_exact. exact Hn.
Qed.

Lemma X1_witness :
  (Z.of_N 3200000 < 2 ^ 53)%Z
  /\ strip_non_digits "$ 3.200.000" = NilEmpty.string_of_uint (N.to_uint 3200000)
  /\ parseInputValue "$ 3.200.000" = Fin (Qc_of_Z (Z.of_N 3200000)).
Proof.
  assert (H0 : (Z.of_N 3200000 < 2 ^ 53)%Z) by reflexivity.
  assert (H : strip_non_digits "$ 3.200.000"
              = NilEmpty.string_of_uint (N.to_uint 3200000))
    by (vm_compute; reflexivity).
  split; [exact H0 | split; [exact H |]].
  exact (X1_parseInputValue_reads_the_numeral _ _ H0 H).
Defined.

(** X2.  A character that is not a decimal digit (a minus sign, a decimal
    point or comma, a letter, a space) does not change the value, wherever
    it stands: the sign is dropped and ["1.5"] reads as [15]. *)
Theorem X2_parseInputValue_ignores_non_digits (s1 s2 : string) (c : ascii) :
  is_digit c = false ->
  parseInputValue (String.append s1 (String c s2))
  = parseInputValue (String.append s1 s2).
Proof.
  intros Hc. rewrite !parseInputValue_value, !strip_non_digits_app.
  cbn [strip_non_digits]. rewrite Hc. reflexivity.
Qed.

Lemma X2_witness :
  is_digit "." = false
  /\ parseInputValue (String.append "1" (String "." "5"))
     = parseInputValue (String.append "1" "5").
Proof.
  assert (H : is_digit "." = false) by reflexivity.
  split; [exact H | exact (X2_parseInputValue_ignores_non_digits "1" "5" "." H)].
Defined.

Lemma string_length_append (s t : string) :
  String.length (String.append s t) = (String.length s + String.length t)%nat.
Proof.
  induction s as [|c rest IH]; simpl.
  - reflexivity.
  - rewrite IH. reflexivity.
Qed.

(** X3.  Typing one more digit at the end of a display with at most
    fourteen digits multiplies the value by ten and adds the digit. *)
Theorem X3_parseInputValue_appended_digit (s : string) (c : ascii) :
  is_digit c = true ->
  (String.length (strip_non_digits s) <= 14)%nat ->
  exists n : Z,
    parseInputValue s = Fin (Qc_of_Z n)
    /\ parseInputValue (String.append s (String c EmptyString))
       = Fin (Qc_of_Z (10 * n + (Z.of_nat (nat_of_ascii c) - 48))).
Proof.
  intros Hc Hlen. exists (parse_digits 0 (strip_non_digits s)).
  assert (Hstrip : strip_non_digits (String.append s (String c EmptyString))
                   = String.append (strip_non_digits s) (String c EmptyString)).
  { rewrite strip_non_digits_app. cbn [strip_non_digits]. rewrite Hc. reflexivity. }
  split.
  - apply (parseInputValue_fits s). lia.
  - destruct (parseInputValue_fits (String.append s (String c EmptyString)))
      as (_ & Hval).
    + rewrite Hstrip, string_length_append. cbn [String.length]. lia.
    + rewrite Hval, Hstrip, parse_digits_app. reflexivity.
Qed.

Lemma X3_witness :
  is_digit "7" = true
  /\ (String.length (strip_non_digits "3.200") <= 14)%nat
  /\ exists n : Z,
       parseInputValue "3.200" = Fin (Qc_of_Z n)
       /\ parseInputValue (String.append "3.200" (String "7" EmptyString))
          = Fin (Qc_of_Z (10 * n + (Z.of_nat (nat_of_ascii "7") - 48))).
Proof.
  assert (H : is_digit "7" = true) by reflexivity.
  assert (Hlen : (String.length (strip_non_digits "3.200") <= 14)%nat)
    by (vm_compute; lia).
  split; [exact H | split; [exact Hlen |]].
  exact (X3_parseInputValue_appended_digit "3.200" "7" H Hlen).
Defined.

Lemma strip_non_digits_no_digit (s : string) :
  forallb (fun c => negb (is_digit c)) (list_ascii_of_string s) = true ->
  strip_non_digits s = EmptyString.
Proof.
  induction s as [|c rest IH]; simpl.
  - reflexivity.
  - intros H. apply andb_prop in H as [Hc Hrest].
    apply negb_true_iff in Hc. rewrite Hc. exact (IH Hrest).
Qed.

(** X4.  A display string without any decimal digit (the empty string
    among them) reads as [0]; and such a prefix followed by zeros does not
    count: the value is that of what follows. *)
Theorem X4_parseInputValue_no_digit_and_leading_zero (s t : string) :
  forallb (fun c => negb (is_digit c)) (list_ascii_of_string s) = true ->
  parseInputValue s = num 0
  /\ parseInputValue (String.append s (String "0" t)) = parseInputValue t.
Proof.
  intros Hs. pose proof (strip_non_digits_no_digit s Hs) as Hstrip. split.
  - unfold parseInputValue. rewrite Hstrip. reflexivity.
  - rewrite !parseInputValue_value, strip_non_digits_app, Hstrip. reflexivity.
Qed.

Lemma X4_witness :
  forallb (fun c => negb (is_digit c)) (list_ascii_of_string "$ ") = true
  /\ parseInputValue "$ " = num 0
  /\ parseInputValue (String.append "$ " (String "0" "42")) = parseInputValue "42".
Proof.
  assert (H : forallb (fun c => negb (is_digit c)) (list_ascii_of_string "$ ") = true)
    by reflexivity.
  split; [exact H | exact (X4_parseInputValue_no_digit_and_leading_zero "$ " "42" H)].
Defined.

(** ** The percentage handler, continued *)

Lemma handleRiskChange_in_range (q : Qc) :
  0 <= q -> q <= Q2Qc 20 -> handleRiskChange (Fin q) = Fin q.
Proof.
  intros Hlo Hhi. unfold handleRiskChange, lt, num. cbn [isNaN].
  rewrite gt_fin, bool_decide_eq_false_2 by (apply Qcle_not_lt; exact Hhi).
  rewrite gt_fin, bool_decide_eq_false_2 by (apply Qcle_not_lt; exact Hlo).
  reflexivity.
Qed.

(** X5.  Whatever [parseFloat] made of the text ([NaN] and the infinities
    included), the percentage set by [handleRiskChange] is finite and lies
    in [0,20]; and handling a value twice is the same as handling it
    once. *)
Theorem X5_handleRiskChange_range_and_idempotent (parsed : number) :
  (exists q : Qc, handleRiskChange parsed = Fin q /\ 0 <= q /\ q <= Q2Qc 20)
  /\ handleRiskChange (handleRiskChange parsed) = handleRiskChange parsed.
Proof.
  destruct (handleRiskChange_range parsed) as (q & Hq & Hlo & Hhi). split.
  - exists q. split; [exact Hq | split; [exact Hlo | exact Hhi]].
  - rewrite Hq. apply handleRiskChange_in_range; assumption.
Qed.

(** X6.  A percentage already within [0,20] is set as it is. *)
Theorem X6_handleRiskChange_identity_in_range (q : Qc) :
  0 <= q -> q <= Q2Qc 20 -> handleRiskChange (Fin q) = Fin q.
Proof. apply handleRiskChange_in_range. Qed.

Lemma X6_witness :
  0 <= Q2Qc 12.5 /\ Q2Qc 12.5 <= Q2Qc 20
  /\ handleRiskChange (Fin (Q2Qc 12.5)) = Fin (Q2Qc 12.5).
Proof.
  assert (H1 : 0 <= Q2Qc 12.5) by (vm_compute; discriminate).
  assert (H2 : Q2Qc 12.5 <= Q2Qc 20) by (vm_compute; discriminate).
  split; [exact H1 | split; [exact H2 |]].
  exact (X6_handleRiskChange_identity_in_range _ H1 H2).
Defined.

(** X7.  Outside the range the handler saturates: a value above 20 (and
    [+Infinity]) becomes 20, every negative value (and [-Infinity]) becomes
    0, and [NaN] (text that is not a number) becomes 0. *)
Theorem X7_handleRiskChange_saturates (hi lo : Qc) :
  Q2Qc 20 < hi -> lo < 0 ->
  handleRiskChange (Fin hi) = num 20
  /\ handleRiskChange (Fin lo) = num 0
  /\ handleRiskChange PosInf = num 20
  /\ handleRiskChange NegInf = num 0
  /\ handleRiskChange NaN = num 0.
Proof.
  intros Hhi Hlo.
  assert (H20 : 0 <= Q2Qc 20) by (vm_compute; discriminate).
  split; [|split; [|split; [|split]]].
  - unfold handleRiskChange, lt, num. cbn [isNaN].
    rewrite gt_fin, (bool_decide_Qclt_true _ _ Hhi).
    rewrite gt_fin, bool_decide_eq_false_2 by (apply Qcle_not_lt; exact H20).
    reflexivity.
  - unfold handleRiskChange, lt, num. cbn [isNaN].
    rewrite gt_fin, bool_decide_eq_false_2.
    + rewrite gt_fin, (bool_decide_Qclt_true _ _ Hlo). reflexivity.
    + apply Qcle_not_lt. apply Qclt_le_weak.
      apply Qclt_le_trans with 0; [exact Hlo | exact H20].
  - vm_compute. reflexivity.
  - vm_compute. reflexivity.
  - vm_compute. reflexivity.
Qed.

Lemma X7_witness :
  Q2Qc 20 < Q2Qc 35 /\ Q2Qc (-0.5) < 0
  /\ handleRiskChange (Fin (Q2Qc 35)) = num 20
  /\ handleRiskChange (Fin (Q2Qc (-0.5))) = num 0.
Proof.
  assert (H1 : Q2Qc 20 < Q2Qc 35) by (vm_compute; reflexivity).
  assert (H2 : Q2Qc (-0.5) < 0) by (vm_compute; reflexivity).
  pose proof (X7_handleRiskChange_saturates _ _ H1 H2) as (Hhi & Hlo & _).
  split; [exact H1 | split; [exact H2 | split; [exact Hhi | exact Hlo]]].
Defined.

(** ** The forward calculation, continued *)

Lemma Qclt_bool_true (a b : Qc) : a < b -> (Fin a <? Fin b)%number = true.
Proof. intros H. rewrite lt_fin. apply bool_decide_eq_true_2. exact H. Qed.

Lemma Qc_lt_q (a b : Qc) : (this a < this b)%Q -> a < b.
Proof. intros H. exact H. Qed.

Lemma Qc_le_q (a b : Qc) : (this a <= this b)%Q -> a <= b.
Proof. intros H. exact H. Qed.







(** X12.  A contract value that is not a number: every monetary field of
    the result is [NaN], but [nonDisposablePercent] is [0] (the guard
    [contractValue > 0] is false on [NaN]); the simulator then takes the
    cost factor to be [0], answers the desired net income itself as the
    required gross value, and its difference is [NaN]. *)
Theorem X12_results_of_NaN (r : RiskLevel.t) (p d : Qc) :
  results NaN r (Fin p)
  = {| contractValue := NaN;
       ibc := NaN;
       health := NaN;
       pension := NaN;
       arl := NaN;
       vacationProvision := NaN;
       severanceProvision := NaN;
       contractualRiskProvision := NaN;
       totalSocialSecurity := NaN;
       totalProvisions := NaN;
       totalCosts := NaN;
       netIncome := NaN;
       nonDisposablePercent := num 0 |}
  /\ simulatorResults (Fin d) (results NaN r (Fin p))
     = {| requiredGross := Fin d; difference := NaN |}.
Proof.
  assert (Hres : results NaN r (Fin p)
    = {| contractValue := NaN; ibc := NaN; health := NaN; pension := NaN;
         arl := NaN; vacationProvision := NaN; severanceProvision := NaN;
         contractualRiskProvision := NaN; totalSocialSecurity := NaN;
         totalProvisions := NaN; totalCosts := NaN; netIncome := NaN;
         nonDisposablePercent := num 0 |}) by reflexivity.
  split; [exact Hres|]. rewrite Hres.
  unfold simulatorResults, factorRemainder, costFactor.
  cbn [contractValue totalCosts gt]. unfold num. cbn [sub add neg].
  rewrite gt_fin, bool_decide_eq_true_2 by (vm_compute; reflexivity).
  rewrite div_fin.
  - cbn [sub add neg]. f_equal. f_equal. field.
    intros E. apply (f_equal this) in E. vm_compute in E. discriminate E.
  - intros E. apply (f_equal this) in E. vm_compute in E. discriminate E.
Qed.

(** ** The efficiency shown *)



(** X14.  Without a positive contract value the efficiency shown is 100
    per cent: at a contract value of zero (or below) the share of costs is
    [0] by the guard, so the display says that all of the amount is the
    contractor's although, with a percentage of at most 20, the net income
    is not positive. *)
Theorem X14_efficiency_without_contract_value (v : Qc) (r : RiskLevel.t) (p : Qc) :
  v <= 0 -> p <= Q2Qc 20 ->
  contractEfficiency (results (Fin v) r (Fin p)) = num 100
  /\ (netIncome (results (Fin v) r (Fin p)) >? num 0)%number = false.
Proof.
  intros Hv Hp. unfold contractEfficiency.
  rewrite (nonDisposablePercent_not_positive v r p Hv). split.
  - unfold num. cbn [sub add neg]. apply Fin_eq. reflexivity.
  - rewrite netIncome_results. unfold num. rewrite gt_fin.
    apply bool_decide_eq_false_2. apply Qcle_not_lt.
    pose proof (costRatio_lt_1 r p Hp) as Hk.
    apply Qc_le_q. revert Hv Hk.
    generalize (Spec.costRatio r p). intros k Hv Hk.
    unfold Qcle, Qclt, Qcminus in *. cbn [this Qcmult Qcplus Qcopp Q2Qc] in *.
    rewrite ?Qred_correct in *. nra.
Qed.

Lemma X14_witness :
  Q2Qc 0 <= 0 /\ Q2Qc 10 <= Q2Qc 20
  /\ contractEfficiency (results (Fin (Q2Qc 0)) RiskLevel.I (Fin (Q2Qc 10))) = num 100.
Proof.
  assert (H1 : Q2Qc 0 <= 0) by (vm_compute; discriminate).
  assert (H2 : Q2Qc 10 <= Q2Qc 20) by (vm_compute; discriminate).
  split; [exact H1 | split; [exact H2 |]].
  exact (proj1 (X14_efficiency_without_contract_value _ RiskLevel.I _ H1 H2)).
Defined.

(** ** The simulator, continued *)







Lemma costRatio_pos (r : RiskLevel.t) (p : Qc) : 0 <= p -> 0 < Spec.costRatio r p.
Proof.
  intros Hp. apply Qclt_le_trans with (Q2Qc 0.251088).
  - reflexivity.
  - exact (costRatio_lower r p Hp).
Qed.



(** X19.  The degenerate branch: when the costs of a positive contract
    value leave no positive net income (a percentage far above the range
    of the handler), the simulator answers a required gross value of [0]
    whatever the desired net income, and the difference is minus the
    contract value. *)
Theorem X19_simulator_degenerate_branch (d v : Qc) (r : RiskLevel.t) (p : Qc) :
  0 < v ->
  (netIncome (results (Fin v) r (Fin p)) >? num 0)%number = false ->
  simulatorResults (Fin d) (results (Fin v) r (Fin p))
  = {| requiredGross := num 0; difference := (num 0 - Fin v)%number |}.
Proof.
  intros Hv Hnet.
  rewrite netIncome_results in Hnet. unfold num in Hnet. rewrite gt_fin in Hnet.
  apply bool_decide_eq_false_1 in Hnet.
  assert (Hrem : ~ 0 < 1 - Spec.costRatio r p).
  { intros H. apply Hnet. change (Q2Qc 0) with 0. apply Qcmult_pos_pos; assumption. }
  unfold simulatorResults. rewrite (factorRemainder_results v r p Hv).
  unfold num. rewrite gt_fin.
  rewrite (bool_decide_eq_false_2 _ Hrem).
  rewrite results_exact. reflexivity.
Qed.

Lemma X19_witness :
  0 < Q2Qc 1000
  /\ (netIncome (results (Fin (Q2Qc 1000)) RiskLevel.I (Fin (Q2Qc 80))) >? num 0)%number
     = false
  /\ simulatorResults (Fin (Q2Qc 2800000))
       (results (Fin (Q2Qc 1000)) RiskLevel.I (Fin (Q2Qc 80)))
     = {| requiredGross := num 0; difference := (num 0 - Fin (Q2Qc 1000))%number |}.
Proof.
  assert (H1 : 0 < Q2Qc 1000) by (vm_compute; reflexivity).
  assert (H2 : (netIncome (results (Fin (Q2Qc 1000)) RiskLevel.I (Fin (Q2Qc 80)))
                >? num 0)%number = false).
  { rewrite netIncome_results. vm_compute. reflexivity. }
  split; [exact H1 | split; [exact H2 |]].
  exact (X19_simulator_degenerate_branch (Q2Qc 2800000) _ RiskLevel.I _ H1 H2).
Defined.

(** X20.  Without a positive contract value the simulator ignores the
    costs: the cost factor is taken as [0], so the required gross value is
    the desired net income itself and the difference is the desired net
    income minus the contract value. *)
Theorem X20_simulator_without_contract_value (d v : Qc) (r : RiskLevel.t) (p : Qc) :
  v <= 0 ->
  simulatorResults (Fin d) (results (Fin v) r (Fin p))
  = {| requiredGross := Fin d; difference := Fin (d - v) |}.
Proof.
  intros Hv.
  rewrite (simulatorResults_exact d v (v * Spec.costRatio r p)).
  - unfold Spec.simulate.
    rewrite (bool_decide_eq_false_2 (0 < v)) by (apply Qcle_not_lt; exact Hv).
    rewrite (bool_decide_eq_true_2 (0 < 1 - 0)) by reflexivity.
    assert (Hd : d / (1 - 0) = d).
    { field. intros E. apply (f_equal this) in E. vm_compute in E. discriminate E. }
    rewrite Hd. reflexivity.
  - rewrite results_exact. reflexivity.
  - apply totalCosts_results.
Qed.

Lemma X20_witness :
  Q2Qc 0 <= 0
  /\ simulatorResults (Fin (Q2Qc 2800000)) (results (Fin (Q2Qc 0)) RiskLevel.I (Fin (Q2Qc 10)))
     = {| requiredGross := Fin (Q2Qc 2800000);
          difference := Fin (Q2Qc 2800000 - Q2Qc 0) |}.
Proof.
  assert (H : Q2Qc 0 <= 0) by (vm_compute; discriminate).
  split; [exact H|].
  exact (X20_simulator_without_contract_value (Q2Qc 2800000) _ RiskLevel.I (Q2Qc 10) H).
Defined.

(** ** The risk cards and the state of the component *)

(** X21.  The risk cards are the enum: the levels of [riskInfo], in order,
    are the string values of the five members of [RiskLevel], so the cast
    of a card's level to [RiskLevel] is sound and every card has a rate in
    [ARL_RATES]. *)
Theorem X21_riskInfo_levels_are_the_enum :
  map level riskInfo = map RiskLevel.value RiskLevel.all
  /\ Forall (fun info => exists r : RiskLevel.t,
               level info = RiskLevel.value r
               /\ ARL_RATES !! level info = Some (Fin (Spec.accidentInsuranceRate r)))
       riskInfo.
Proof.
  split; [reflexivity|].
  unfold riskInfo.
  repeat (apply Forall_cons; split;
          [first [ exists RiskLevel.I; split; [reflexivity | apply (ARL_RATES_lookup RiskLevel.I)]
                 | exists RiskLevel.II; split; [reflexivity | apply (ARL_RATES_lookup RiskLevel.II)]
                 | exists RiskLevel.III; split; [reflexivity | apply (ARL_RATES_lookup RiskLevel.III)]
                 | exists RiskLevel.IV; split; [reflexivity | apply (ARL_RATES_lookup RiskLevel.IV)]
                 | exists RiskLevel.V; split; [reflexivity | apply (ARL_RATES_lookup RiskLevel.V)] ]
          |]).
  apply Forall_nil. exact I.
Qed.

Lemma amount_in_range_num (n : Z) : (0 <= n)%Z -> amount_in_range (Fin (Qc_of_Z n)).
Proof.
  intros Hn. left. exists (Qc_of_Z n). split; [reflexivity | exact (Qc_of_Z_nonneg n Hn)].
Qed.

Lemma inputs_finite_initial : inputs_finite AppState.initial.
Proof.
  unfold inputs_finite, AppState.initial. cbn.
  split; [|split; [|split]].
  - exists 3200000%Z. split; [lia | apply Fin_eq; reflexivity].
  - exists RiskLevel.I. reflexivity.
  - exists (Q2Qc 10.0). split; [reflexivity | split; vm_compute; discriminate].
  - exists 2800000%Z. split; [lia | apply Fin_eq; reflexivity].
Qed.

Lemma inputs_finite_in_range (st : AppState.t) :
  inputs_finite st -> inputs_in_range st.
Proof.
  intros ((n & Hn & Hcv) & Hrl & Hpct & (m & Hm & Hd)).
  unfold inputs_in_range. rewrite Hcv, Hd.
  split; [exact (amount_in_range_num n Hn) | split; [exact Hrl | split; [exact Hpct |]]].
  exact (amount_in_range_num m Hm).
Qed.

Lemma riskPresets_in_range (index : nat) (preset : RiskPreset) :
  riskPresets !! index = Some preset ->
  exists q : Qc, val preset = Fin q /\ 0 <= q /\ q <= Q2Qc 20.
Proof.
  unfold riskPresets.
  destruct index as [|[|[|index]]]; cbn; intros H; inversion H; subst; cbn [val].
  - exists (Q2Qc 5). split; [reflexivity | split; vm_compute; discriminate].
  - exists (Q2Qc 10). split; [reflexivity | split; vm_compute; discriminate].
  - exists (Q2Qc 15). split; [reflexivity | split; vm_compute; discriminate].
Qed.

Lemma riskInfo_level_in_enum (index : nat) (info : RiskInfo) :
  riskInfo !! index = Some info ->
  exists r : RiskLevel.t, level info = RiskLevel.value r.
Proof.
  unfold riskInfo.
  destruct index as [|[|[|[|[|index]]]]]; cbn; intros H; inversion H; subst;
    cbn [level].
  - exists RiskLevel.I. reflexivity.
  - exists RiskLevel.II. reflexivity.
  - exists RiskLevel.III. reflexivity.
  - exists RiskLevel.IV. reflexivity.
  - exists RiskLevel.V. reflexivity.
Qed.

Lemma inputs_in_range_handle (st : AppState.t) (e : Event) :
  inputs_in_range st -> inputs_in_range (handle st e).
Proof.
  intros (Hcv & Hrl & Hpct & Hdni).
  destruct e as [value|selected| | |parsed|index| |value|index];
    unfold handle, inputs_in_range.
  - cbn. split; [|split; [|split]]; try assumption.
    exact (parseInputValue_in_range value).
  - cbn. split; [|split; [|split]]; try assumption.
    exists selected. reflexivity.
  - cbn. split; [|split; [|split]]; assumption.
  - cbn. split; [|split; [|split]]; assumption.
  - cbn. split; [|split; [|split]]; try assumption.
    exact (handleRiskChange_range parsed).
  - destruct (riskPresets !! index) as [preset|] eqn:Hpreset.
    + cbn. split; [|split; [|split]]; try assumption.
      exact (riskPresets_in_range index preset Hpreset).
    + split; [|split; [|split]]; assumption.
  - split; [|split; [|split]]; assumption.
  - cbn. split; [|split; [|split]]; try assumption.
    exact (parseInputValue_in_range value).
  - destruct (riskInfo !! index) as [info|] eqn:Hinfo.
    + cbn. split; [|split; [|split]]; try assumption.
      exact (riskInfo_level_in_enum index info Hinfo).
    + split; [|split; [|split]]; assumption.
Qed.

Lemma inputs_in_range_fold (events : list Event) :
  forall st : AppState.t,
    inputs_in_range st -> inputs_in_range (fold_left handle events st).
Proof.
  induction events as [|e events IH]; intros st Hst; cbn [fold_left].
  - exact Hst.
  - apply IH. apply inputs_in_range_handle. exact Hst.
Qed.

(** X22.  Whatever the user does, in any order (typing in the two amount
    fields and in the percentage field, choosing a risk level in the list
    or on a card, clicking a preset, opening and closing the dialogue,
    generating the report), the inputs of the engine stay in range: each
    amount is finite and not negative, or [+Infinity] (a text of more than
    three hundred digits), and is never [NaN]; the risk level is one of
    the five enum values; the percentage is finite and within [0,20]. *)
Theorem X22_inputs_stay_in_range (events : list Event) :
  inputs_in_range (run events).
Proof.
  unfold run. apply inputs_in_range_fold.
  apply inputs_finite_in_range. exact inputs_finite_initial.
Qed.

Lemma inputs_finite_handle (st : AppState.t) (e : Event) :
  amount_fits e -> inputs_finite st -> inputs_finite (handle st e).
Proof.
  intros Hfit (Hcv & Hrl & Hpct & Hdni).
  destruct e as [value|selected| | |parsed|index| |value|index];
    unfold handle, inputs_finite.
  - cbn. split; [|split; [|split]]; try assumption.
    destruct (parseInputValue_fits value Hfit) as (Hn & Hv).
    exists (parse_digits 0 (strip_non_digits value)). split; [lia | exact Hv].
  - cbn. split; [|split; [|split]]; try assumption.
    exists selected. reflexivity.
  - cbn. split; [|split; [|split]]; assumption.
  - cbn. split; [|split; [|split]]; assumption.
  - cbn. split; [|split; [|split]]; try assumption.
    exact (handleRiskChange_range parsed).
  - destruct (riskPresets !! index) as [preset|] eqn:Hpreset.
    + cbn. split; [|split; [|split]]; try assumption.
      exact (riskPresets_in_range index preset Hpreset).
    + split; [|split; [|split]]; assumption.
  - split; [|split; [|split]]; assumption.
  - cbn. split; [|split; [|split]]; try assumption.
    destruct (parseInputValue_fits value Hfit) as (Hn & Hv).
    exists (parse_digits 0 (strip_non_digits value)). split; [lia | exact Hv].
  - destruct (riskInfo !! index) as [info|] eqn:Hinfo.
    + cbn. split; [|split; [|split]]; try assumption.
      exact (riskInfo_level_in_enum index info Hinfo).
    + split; [|split; [|split]]; assumption.
Qed.

Lemma inputs_finite_fold (events : list Event) :
  Forall amount_fits events ->
  forall st : AppState.t,
    inputs_finite st -> inputs_finite (fold_left handle events st).
Proof.
  induction events as [|e events IH]; intros Hfit st Hst; cbn [fold_left].
  - exact Hst.
  - apply Forall_cons in Hfit as [He Hrest].
    apply (IH Hrest). apply inputs_finite_handle; assumption.
Qed.

Lemma state_results_exact (st : AppState.t) (v : Qc) (r : RiskLevel.t) (p : Qc) :
  AppState.contractValue st = Fin v ->
  AppState.riskLevel st = RiskLevel.value r ->
  AppState.contractualRiskPercent st = Fin p ->
  state_results st = Spec.compute v r p.
Proof.
  intros Hv Hr Hp. unfold state_results. rewrite Hv, Hr, Hp.
  exact (results_exact v r p).
Qed.

Lemma simulate_in_range (d v : Qc) (r : RiskLevel.t) (p : Qc) :
  0 <= v -> 0 <= p -> p <= Q2Qc 20 -> 0 <= d ->
  exists g : Qc,
    requiredGross (simulatorResults (Fin d) (results (Fin v) r (Fin p))) = Fin g
    /\ d <= g.
Proof.
  intros Hv Hlo Hhi Hd.
  destruct (Qcle_lt_or_eq _ _ Hv) as [Hpos | Hzero].
  - pose proof (Qc_remainder_pos _ (costRatio_lt_1 r p Hhi)) as Hrem.
    pose proof (costRatio_pos r p Hlo) as Hk.
    exists (d / (1 - Spec.costRatio r p)). split.
    + rewrite (simulatorResults_results d v r p Hpos Hhi). reflexivity.
    + revert Hrem Hk. generalize (Spec.costRatio r p). intros k Hrem Hk.
      apply (proj2 (Qcmult_le_mono_pos_r _ _ _ Hrem)).
      replace (d / (1 - k) * (1 - k)) with d
        by (field; exact (Qc_pos_neq_0 _ Hrem)).
      rewrite <- (Qcmult_1_r d) at 2.
      apply Qcmult_le_mono_nonneg_l; [exact Hd|].
      apply Qc_le_q. revert Hk. unfold Qclt, Qcminus.
      cbn [this Qcplus Qcopp Q2Qc]. rewrite ?Qred_correct. intros Hk. lra.
  - subst v. exists d. split; [|apply Qcle_refl].
    rewrite (simulatorResults_exact d 0 (0 * Spec.costRatio r p)).
    + unfold Spec.simulate.
      rewrite (bool_decide_eq_false_2 (0 < 0)) by (apply Qcle_not_lt, Qcle_refl).
      rewrite (bool_decide_eq_true_2 (0 < 1 - 0)) by reflexivity.
      cbn [requiredGross]. f_equal. field.
      intros E. apply (f_equal this) in E. vm_compute in E. discriminate E.
    + rewrite results_exact. reflexivity.
    + apply totalCosts_results.
Qed.

(** X23.  As long as the amounts typed have at most fifteen digits, the
    figures shown are sound whatever the user does: after any such
    sequence of events every field of the result is finite (no [NaN], no
    infinity), the net income is not negative, the share of costs lies
    between 0 and 48 per cent, and the required gross value is finite and
    at least the desired net income. *)
Theorem X23_displayed_figures_are_sound (events : list Event) :
  Forall amount_fits events ->
  (exists (v : Qc) (r : RiskLevel.t) (p : Qc),
     state_results (run events) = Spec.compute v r p)
  /\ (netIncome (state_results (run events)) <? num 0)%number = false
  /\ (nonDisposablePercent (state_results (run events)) <? num 0)%number = false
  /\ (nonDisposablePercent (state_results (run events)) <? num 48)%number = true
  /\ (exists g d : Qc,
        AppState.desiredNetIncome (run events) = Fin d
        /\ requiredGross (state_simulatorResults (run events)) = Fin g
        /\ d <= g).
Proof.
  intros Hfit.
  assert (Hinv : inputs_finite (run events))
    by (unfold run; apply (inputs_finite_fold events Hfit);
        exact inputs_finite_initial).
  destruct Hinv
    as ((n & Hn & Hcv) & (r & Hr) & (p & Hp & Hlo & Hhi) & (m & Hm & Hd)).
  pose proof (Qc_of_Z_nonneg n Hn) as Hv.
  pose proof (Qc_of_Z_nonneg m Hm) as Hd0.
  assert (Hres : state_results (run events)
                 = results (Fin (Qc_of_Z n)) r (Fin p)).
  { unfold state_results. rewrite Hcv, Hr, Hp. reflexivity. }
  pose proof (Qc_remainder_pos _ (costRatio_lt_1 r p Hhi)) as Hrem.
  pose proof (costRatio_pos r p Hlo) as Hk.
  pose proof (costRatio_upper r p Hhi) as Hup.
  unfold state_simulatorResults. rewrite Hres, Hd.
  split; [|split; [|split; [|split]]].
  - exists (Qc_of_Z n), r, p. apply results_exact.
  - rewrite netIncome_results. unfold num. rewrite lt_fin.
    apply bool_decide_eq_false_2. apply Qcle_not_lt.
    apply Qcmult_nonneg_nonneg; [exact Hv | apply Qclt_le_weak; exact Hrem].
  - destruct (Qcle_lt_or_eq _ _ Hv) as [Hpos | Hzero].
    + rewrite (nonDisposablePercent_results _ r p Hpos). unfold num.
      rewrite lt_fin. apply bool_decide_eq_false_2. apply Qcle_not_lt.
      apply Qcmult_nonneg_nonneg; [apply Qclt_le_weak; exact Hk|].
      vm_compute. discriminate.
    + rewrite nonDisposablePercent_not_positive
        by (rewrite <- Hzero; apply Qcle_refl).
      vm_compute. reflexivity.
  - destruct (Qcle_lt_or_eq _ _ Hv) as [Hpos | Hzero].
    + rewrite (nonDisposablePercent_results _ r p Hpos). unfold num.
      apply Qclt_bool_true.
      apply Qc_lt_q. revert Hup. unfold Qcle.
      cbn [this Qcmult Q2Qc]. rewrite ?Qred_correct. intros Hup. lra.
    + rewrite nonDisposablePercent_not_positive
        by (rewrite <- Hzero; apply Qcle_refl).
      vm_compute. reflexivity.
  - destruct (simulate_in_range (Qc_of_Z m) (Qc_of_Z n) r p Hv Hlo Hhi Hd0)
      as (g & Hg & Hle).
    exists g, (Qc_of_Z m). split; [reflexivity | split; [exact Hg | exact Hle]].
Qed.

Lemma X23_witness :
  Forall amount_fits
    [ContractValueChange "5.000.000"; RiskCardClick 4;
     RiskPercentChange (num 20); DesiredNetIncomeChange "4.000.000"]
  /\ (nonDisposablePercent
        (state_results
           (run [ContractValueChange "5.000.000"; RiskCardClick 4;
                 RiskPercentChange (num 20); DesiredNetIncomeChange "4.000.000"]))
      <? num 48)%number = true.
Proof.
  assert (H : Forall amount_fits
                [ContractValueChange "5.000.000"; RiskCardClick 4;
                 RiskPercentChange (num 20); DesiredNetIncomeChange "4.000.000"]).
  { repeat (apply Forall_cons; split; [vm_compute; first [exact I | lia]|]).
    apply Forall_nil. exact I. }
  pose proof (X23_displayed_figures_are_sound _ H) as (_ & _ & _ & Hndp & _).
  split; [exact H | exact Hndp].
Defined.
